(** * TaskBoard reminder dialog ([.taskList/window.py])

    A shallow embedding of the reminder dialog: the Python built-ins it
    calls on text ([str.strip], [str.split], [int]), the exceptions and
    [try]/[except] blocks it relies on, the child processes it starts
    through [subprocess.run], the Qt objects it owns (line edit, status
    label, two recurring timers, one-shot timers, the event loop), and the
    methods of [TaskDialog] together with [main].

    What lies outside the program is a parameter: the operating system
    answers each command ([system]), and the user and the clock feed the
    event loop with a list of events ([event]).  Methods take [self] and
    return it updated; the rest of the state (child processes started,
    pending one-shot timers, the quit request) and exceptions are threaded
    by the computation type [M]. *)

From Stdlib Require Import List NArith ZArith Bool Ascii String Lia.
Import ListNotations.

Local Open Scope N_scope.

(** ** Python text

    A Python [str] is a sequence of Unicode code points. *)

Definition str : Type := list N.

(** Source literals are written as in the program and decoded from the
    UTF-8 bytes of the file. *)
Fixpoint utf8_decode (bs : list N) : str :=
  match bs with
  | [] => []
  | b0 :: t0 =>
    if b0 <? 0x80 then b0 :: utf8_decode t0
    else
      match t0 with
      | [] => []
      | b1 :: t1 =>
        if b0 <? 0xE0 then
          N.lor (N.shiftl (N.land b0 0x1F) 6) (N.land b1 0x3F) :: utf8_decode t1
        else
          match t1 with
          | [] => []
          | b2 :: t2 =>
            if b0 <? 0xF0 then
              N.lor (N.shiftl (N.land b0 0x0F) 12)
                (N.lor (N.shiftl (N.land b1 0x3F) 6) (N.land b2 0x3F))
                :: utf8_decode t2
            else
              match t2 with
              | [] => []
              | b3 :: t3 =>
                N.lor (N.shiftl (N.land b0 0x07) 18)
                  (N.lor (N.shiftl (N.land b1 0x3F) 12)
                     (N.lor (N.shiftl (N.land b2 0x3F) 6) (N.land b3 0x3F)))
                  :: utf8_decode t3
              end
          end
      end
  end.

Definition lit (s : string) : str :=
  utf8_decode (map N_of_ascii (list_ascii_of_string s)).

Module Py.

(** [str.isspace] on one code point, as [str.strip] and [str.split] test it
    ([Py_UNICODE_ISSPACE]): the ASCII controls TAB..CR and FS..US, the
    space, and the Unicode separators. *)
Definition isspace (c : N) : bool :=
  ((0x09 <=? c) && (c <=? 0x0D))
  || ((0x1C <=? c) && (c <=? 0x20))
  || (c =? 0x85) || (c =? 0xA0) || (c =? 0x1680)
  || ((0x2000 <=? c) && (c <=? 0x200A))
  || (c =? 0x2028) || (c =? 0x2029) || (c =? 0x202F) || (c =? 0x205F)
  || (c =? 0x3000).

(** The C-locale whitespace test of the integer parser ([Py_ISSPACE]). *)
Definition c_isspace (c : N) : bool :=
  ((0x09 <=? c) && (c <=? 0x0D)) || (c =? 0x20).

Fixpoint lstrip (s : str) : str :=
  match s with
  | [] => []
  | c :: s' => if isspace c then lstrip s' else s
  end.

Definition rstrip (s : str) : str := rev (lstrip (rev s)).

(** [s.strip()] *)
Definition strip (s : str) : str := rstrip (lstrip s).

(** [s.split()] with no separator: the maximal runs of non-whitespace
    characters, left to right.  [cur] is the run being read, reversed. *)
Fixpoint split_from (cur : str) (s : str) : list str :=
  match s with
  | [] => match cur with [] => [] | _ :: _ => [rev cur] end
  | c :: s' =>
    if isspace c then
      match cur with
      | [] => split_from [] s'
      | _ :: _ => rev cur :: split_from [] s'
      end
    else split_from (c :: cur) s'
  end.

Definition split (s : str) : list str := split_from [] s.

(** Truth value of a [str]: non-empty. *)
Definition truthy (s : str) : bool :=
  match s with [] => false | _ :: _ => true end.

(** *** [int(text)]

    Code points that start a run of ten decimal digits (Unicode general
    category Nd, as in the Unicode 14 database of CPython 3.11). *)
Definition decimal_zeros : list N :=
  [ 0x30; 0x660; 0x6F0; 0x7C0; 0x966; 0x9E6; 0xA66; 0xAE6; 0xB66; 0xBE6;
    0xC66; 0xCE6; 0xD66; 0xDE6; 0xE50; 0xED0; 0xF20; 0x1040; 0x1090;
    0x17E0; 0x1810; 0x1946; 0x19D0; 0x1A80; 0x1A90; 0x1B50; 0x1BB0;
    0x1C40; 0x1C50; 0xA620; 0xA8D0; 0xA900; 0xA9D0; 0xA9F0; 0xAA50;
    0xABF0; 0xFF10; 0x104A0; 0x10D30; 0x11066; 0x110F0; 0x11136; 0x111D0;
    0x112F0; 0x11450; 0x114D0; 0x11650; 0x116C0; 0x11730; 0x118E0;
    0x11950; 0x11C50; 0x11D50; 0x11DA0; 0x16A60; 0x16AC0; 0x16B50;
    0x1D7CE; 0x1D7D8; 0x1D7E2; 0x1D7EC; 0x1D7F6; 0x1E140; 0x1E2F0;
    0x1E950; 0x1FBF0 ].

(** [Py_UNICODE_TODECIMAL] *)
Definition todecimal (c : N) : option N :=
  match find (fun z => (z <=? c) && (c <? z + 10)) decimal_zeros with
  | Some z => Some (c - z)
  | None => None
  end.

(** First pass of [int] on text: non-ASCII whitespace becomes a space,
    non-ASCII decimal digits become ASCII digits, and the text is cut
    after a [?] put in place of the first other non-ASCII character. *)
Fixpoint transform_decimal_and_space_to_ascii (u : str) : str :=
  match u with
  | [] => []
  | ch :: u' =>
    if 127 <? ch then
      if isspace ch then 0x20 :: transform_decimal_and_space_to_ascii u'
      else
        match todecimal ch with
        | Some d => (0x30 + d) :: transform_decimal_and_space_to_ascii u'
        | None => [0x3F]
        end
    else ch :: transform_decimal_and_space_to_ascii u'
  end.

Fixpoint skip_c_spaces (b : str) : str :=
  match b with
  | [] => []
  | c :: b' => if c_isspace c then skip_c_spaces b' else b
  end.

Definition is_ascii_digit (c : N) : bool := (0x30 <=? c) && (c <=? 0x39).

(** The scanning loop of the base-10 parser: digits and single
    underscores between them.  [prev_us] tells whether the previous
    character was an underscore, [acc] holds the digit values read so far
    (last first).  [None] is a syntax error; otherwise the digit values in
    order and the unread rest. *)
Fixpoint scan_digits (prev_us : bool) (acc : list N) (b : str)
  : option (list N * str) :=
  match b with
  | c :: b' =>
    if is_ascii_digit c then scan_digits false ((c - 0x30) :: acc) b'
    else if c =? 0x5F then
      if prev_us then None else scan_digits true acc b'
    else if prev_us then None else Some (rev acc, b)
  | [] => if prev_us then None else Some (rev acc, [])
  end.

Definition digits_value (ds : list N) : Z :=
  fold_left (fun v d => (10 * v + Z.of_N d)%Z) ds 0%Z.

(** Default of [sys.get_int_max_str_digits()]. *)
Definition int_max_str_digits : Z := 4300.

(** [int(u)] for a [str] argument, base 10; [None] stands for
    [ValueError]. *)
Definition int (u : str) : option Z :=
  let b := skip_c_spaces (transform_decimal_and_space_to_ascii u) in
  let '(negative, b) :=
    match b with
    | 0x2B :: b' => (false, b')
    | 0x2D :: b' => (true, b')
    | _ => (false, b)
    end in
  match b with
  | 0x5F :: _ => None
  | _ =>
    match scan_digits false [] b with
    | None => None
    | Some (ds, rest) =>
      match ds with
      | [] => None
      | _ :: _ =>
        match skip_c_spaces rest with
        | _ :: _ => None
        | [] =>
          if (int_max_str_digits <? Z.of_nat (List.length ds))%Z then None
          else Some (if negative then (- digits_value ds)%Z else digits_value ds)
        end
      end
    end
  end.

End Py.

Local Open Scope Z_scope.

(** ** Exceptions

    [error] gathers the subclasses of [Exception] this program can meet:
    [OSError] (the child process could not be started) and [ValueError]
    ([int] on text that is no number, undecodable output).  [SystemExit]
    derives from [BaseException] only. *)
Inductive error : Type :=
| OSError (msg : str)
| ValueError (msg : str).

Inductive exn : Type :=
| SystemExit (code : Z)
| Error (e : error).

(** [str(e)] *)
Definition error_text (e : error) : str :=
  match e with
  | OSError msg => msg
  | ValueError msg => msg
  end.

Inductive result (A : Type) : Type :=
| Ok (a : A)
| Raise (e : exn).
Arguments Ok {A} a.
Arguments Raise {A} e.

(** ** Child processes

    [subprocess.run(argv, capture_output=True, text=True)] either raises or
    returns the exit status and the decoded output of the child. *)
Record CompletedProcess : Type := mkCompleted {
  returncode : Z;
  stdout : str;
  stderr : str
}.

Inductive run_outcome : Type :=
| RunRaises (e : error)
| RunCompleted (r : CompletedProcess).

Definition argv : Type := list str.

(** The operating system as this program sees it: the outcome of a command,
    given the commands run before it (oldest first).  Only commands that
    end are described: [subprocess.run] is given no timeout, and a child
    that never ends keeps the program inside that call for good, so that
    no later step exists to speak of. *)
Definition system : Type := list argv -> argv -> run_outcome.

(** ** Qt objects *)

(** The callables connected to timers. *)
Inductive slot : Type :=
| check_tasks_external_slot
| ensure_on_top_slot
| QApplication_quit_slot.

Record QTimer : Type := mkTimer {
  interval : Z;          (* milliseconds *)
  active : bool;
  timeout : slot
}.

Definition stop (t : QTimer) : QTimer :=
  {| interval := interval t; active := false; timeout := timeout t |}.

Record QLabel : Type := mkLabel {
  text : str;
  styleSheet : str
}.

(** The part of the process that outlives a method call: the child
    processes started so far (oldest first), the one-shot timers waiting
    to fire (delay in milliseconds and callable), and whether the event
    loop has been told to exit (by [QApplication.quit]). *)
Record Process : Type := mkProcess {
  calls : list argv;
  single_shots : list (Z * slot);
  quit_requested : bool
}.

(** The instance attributes of [TaskDialog] and the window state the
    methods act on.  The window geometry (70 percent of the screen,
    centred) is not represented. *)
Record TaskDialog : Type := mkDialog {
  entry : str;               (* self.entry.text() *)
  status_label : QLabel;
  check_timer : QTimer;
  top_timer : QTimer;
  dragging : bool;
  offset : Z * Z;
  visible : bool;
  raised : nat               (* calls of raise_() and activateWindow() *)
}.

Definition set_entry (s : str) (d : TaskDialog) : TaskDialog :=
  {| entry := s; status_label := status_label d;
     check_timer := check_timer d; top_timer := top_timer d;
     dragging := dragging d; offset := offset d;
     visible := visible d; raised := raised d |}.

Definition set_status_label (l : QLabel) (d : TaskDialog) : TaskDialog :=
  {| entry := entry d; status_label := l;
     check_timer := check_timer d; top_timer := top_timer d;
     dragging := dragging d; offset := offset d;
     visible := visible d; raised := raised d |}.

Definition set_timers (c t : QTimer) (d : TaskDialog) : TaskDialog :=
  {| entry := entry d; status_label := status_label d;
     check_timer := c; top_timer := t;
     dragging := dragging d; offset := offset d;
     visible := visible d; raised := raised d |}.

Definition set_drag (b : bool) (o : Z * Z) (d : TaskDialog) : TaskDialog :=
  {| entry := entry d; status_label := status_label d;
     check_timer := check_timer d; top_timer := top_timer d;
     dragging := b; offset := o;
     visible := visible d; raised := raised d |}.

Definition set_visible (b : bool) (d : TaskDialog) : TaskDialog :=
  {| entry := entry d; status_label := status_label d;
     check_timer := check_timer d; top_timer := top_timer d;
     dragging := dragging d; offset := offset d;
     visible := b; raised := raised d |}.

Definition set_raised (n : nat) (d : TaskDialog) : TaskDialog :=
  {| entry := entry d; status_label := status_label d;
     check_timer := check_timer d; top_timer := top_timer d;
     dragging := dragging d; offset := offset d;
     visible := visible d; raised := n |}.

(** ** Computations: process state and exceptions *)

Definition M (A : Type) : Type := Process -> result A * Process.

Definition ret {A} (a : A) : M A := fun p => (Ok a, p).

Definition raise {A} (e : exn) : M A := fun p => (Raise e, p).

Definition bind {A B} (c : M A) (k : A -> M B) : M B :=
  fun p =>
    match c p with
    | (Ok a, p') => k a p'
    | (Raise e, p') => (Raise e, p')
    end.

Notation "x <- c ;; k" := (bind c (fun x => k))
  (at level 61, c at next level, right associativity).
Notation "c ;; k" := (bind c (fun _ => k))
  (at level 61, right associativity).

(** [try: body  except: handler] catches every exception, [SystemExit]
    included. *)
Definition try_except {A} (body : M A) (handler : M A) : M A :=
  fun p =>
    match body p with
    | (Ok a, p') => (Ok a, p')
    | (Raise _, p') => handler p'
    end.

(** [try: body  except Exception as e: handler] lets [SystemExit] pass. *)
Definition try_except_Exception {A} (body : M A) (handler : error -> M A)
  : M A :=
  fun p =>
    match body p with
    | (Ok a, p') => (Ok a, p')
    | (Raise (Error e), p') => handler e p'
    | (Raise (SystemExit c), p') => (Raise (SystemExit c), p')
    end.

(** [sys.exit(code)] *)
Definition sys_exit {A} (code : Z) : M A := raise (SystemExit code).

(** [int(s)] as a computation; the text of the [ValueError] is never read
    by this program. *)
Definition int (s : str) : M Z :=
  match Py.int s with
  | Some n => ret n
  | None => raise (Error (ValueError (lit "invalid literal for int()")))
  end.

(** [QCoreApplication::exit(0)]: the event loop is told to return 0 once
    the slot at work is done. *)
Definition QCoreApplication_exit : M unit :=
  fun p => (Ok tt, {| calls := calls p; single_shots := single_shots p;
                      quit_requested := true |}).

(** [QTimer.singleShot(msec, callable)] *)
Definition QTimer_singleShot (msec : Z) (f : slot) : M unit :=
  fun p => (Ok tt, {| calls := calls p;
                      single_shots := single_shots p ++ [(msec, f)];
                      quit_requested := quit_requested p |}).

Definition started (cmd : argv) (p : Process) : Process :=
  {| calls := calls p ++ [cmd]; single_shots := single_shots p;
     quit_requested := quit_requested p |}.

(** ** The program *)

(** The count query, run at start-up and by [has_valid_tasks]. *)
Definition count_query : argv :=
  [lit "task"; lit "due.before:now+23h"; lit "status:pending";
   lit "-OVERDUE"; lit "count"].

(** The command of [on_submit] for the given tokens. *)
Definition add_command (tokens : list str) : argv :=
  [lit "task"; lit "add"] ++ tokens.

Definition show_error (msg : str) (self : TaskDialog) : TaskDialog :=
  set_status_label
    {| text := lit "❌ " ++ msg;
       styleSheet := lit "color: #c01c28; font-weight: bold;" |} self.

Definition show_warning (msg : str) (self : TaskDialog) : TaskDialog :=
  set_status_label
    {| text := lit "⚠️ " ++ msg;
       styleSheet := lit "color: #e5a50a; font-weight: bold;" |} self.

Definition show_success (self : TaskDialog) : TaskDialog :=
  set_status_label
    {| text := lit "✓ 任务已成功添加！";
       styleSheet := lit "color: #26a269; font-weight: bold;" |} self.

Definition ensure_on_top (self : TaskDialog) : TaskDialog :=
  set_raised (S (raised self)) self.

(** [TaskDialog()]: [__init__] with [initUI]. *)
Definition TaskDialog__init__ : TaskDialog :=
  {| entry := [];
     status_label :=
       {| text := lit "提示：此窗口将保持打开直到您添加有效任务（可拖动窗口）";
          styleSheet := lit "color: #888; font-style: italic;" |};
     check_timer :=
       {| interval := 2000; active := true;
          timeout := check_tasks_external_slot |};
     top_timer :=
       {| interval := 500; active := true; timeout := ensure_on_top_slot |};
     dragging := false;
     offset := (0, 0);
     visible := false;
     raised := 0 |}.

(** [dialog.show()] *)
Definition show (self : TaskDialog) : TaskDialog := set_visible true self.

Definition mousePressEvent (left_button : bool) (pos : Z * Z) (self : TaskDialog)
  : TaskDialog :=
  if left_button then set_drag true pos self else self.

Definition mouseReleaseEvent (left_button : bool) (self : TaskDialog) : TaskDialog :=
  if left_button then set_drag false (offset self) self else self.

(** What the user and the timers do to the running dialog. *)
Inductive timer_id : Type := CheckTimer | TopTimer.

Inductive event : Type :=
| TextEdited (s : str)              (* the line edit now holds [s] *)
| ReturnPressed                     (* entry.returnPressed *)
| Clicked                           (* submit_btn.clicked *)
| TimerTimeout (t : timer_id)
| SingleShotTimeout                 (* the oldest one-shot timer fires *)
| CloseRequested                    (* closeEvent *)
| MousePress (left_button : bool) (pos : Z * Z)
| MouseMove (global : Z * Z)
| MouseRelease (left_button : bool).

(** State of [app.exec()] after some events. *)
Inductive exec_state : Type :=
| Waiting                           (* the loop waits for the next event *)
| Returned (code : Z)
| SlotRaised (e : exn).

(** State of the whole process. *)
Inductive process_state : Type :=
| Running
| Exited (code : Z)
| Aborted (e : exn).

Record world : Type := mkWorld {
  state : process_state;
  window : option TaskDialog;
  process : Process
}.

Section Program.

Variable os : system.

Definition subprocess_run (cmd : argv) : M CompletedProcess :=
  fun p =>
    match os (calls p) cmd with
    | RunCompleted r => (Ok r, started cmd p)
    | RunRaises e => (Raise (Error e), started cmd p)
    end.

Definition has_valid_tasks : M bool :=
  try_except
    (result <- subprocess_run count_query ;;
     n <- int (Py.strip (stdout result)) ;;
     ret (0 <? n))
    (ret false).

Definition on_submit (self : TaskDialog) : M TaskDialog :=
  let task_input := Py.strip (entry self) in
  if negb (Py.truthy task_input) then
    ret (show_error (lit "请输入任务内容") self)
  else
    returned <-
      try_except_Exception
        (result <- subprocess_run (add_command (Py.split task_input)) ;;
         if negb (returncode result =? 0) then
           ret (Some (show_error (lit "添加失败：" ++ stderr result) self))
         else ret None)
        (fun e =>
           ret (Some (show_error (lit "执行错误：" ++ error_text e) self))) ;;
    match returned with
    | Some self' => ret self'
    | None =>
      valid <- has_valid_tasks ;;
      if valid then
        let self := show_success self in
        QTimer_singleShot 1000 QApplication_quit_slot ;;
        ret self
      else
        let self :=
          show_warning (lit "任务已添加，但到期时间不在未来 23 小时内") self in
        ret (set_entry [] self)
    end.

(** [self.check_timer.stop(); self.top_timer.stop()] *)
Definition stop_timers (self : TaskDialog) : TaskDialog :=
  set_timers (stop (check_timer self)) (stop (top_timer self)) self.

(** [closeEvent], as [QWidget.close()] delivers it.  While it runs the
    window is marked as closing, so the [QApplication.quit()] it calls
    finds no window left to close and only tells the loop to exit; the
    accepted close event then hides the window. *)
Definition closeEvent (self : TaskDialog) : M TaskDialog :=
  let self := stop_timers self in
  QCoreApplication_exit ;;
  ret (set_visible false self).

(** [QApplication.quit()] (Qt 6): the visible top-level window is closed
    first, which runs its [closeEvent]; the close being accepted, the
    loop is told to exit. *)
Definition QApplication_quit (self : TaskDialog) : M TaskDialog :=
  self <- (if visible self then closeEvent self else ret self) ;;
  QCoreApplication_exit ;;
  ret self.

Definition check_tasks_external (self : TaskDialog) : M TaskDialog :=
  valid <- has_valid_tasks ;;
  if valid then
    let self := stop_timers self in
    QApplication_quit self
  else ret self.

Definition call_slot (f : slot) (self : TaskDialog) : M TaskDialog :=
  match f with
  | check_tasks_external_slot => check_tasks_external self
  | ensure_on_top_slot => ret (ensure_on_top self)
  | QApplication_quit_slot => QApplication_quit self
  end.

(** One event delivered to the dialog.  A stopped timer does not fire. *)
Definition dispatch (ev : event) (self : TaskDialog) : M TaskDialog :=
  match ev with
  | TextEdited s => ret (set_entry s self)
  | ReturnPressed => on_submit self
  | Clicked => on_submit self
  | TimerTimeout CheckTimer =>
    if active (check_timer self)
    then call_slot (timeout (check_timer self)) self
    else ret self
  | TimerTimeout TopTimer =>
    if active (top_timer self)
    then call_slot (timeout (top_timer self)) self
    else ret self
  | SingleShotTimeout =>
    fun p =>
      match single_shots p with
      | [] => (Ok self, p)
      | (_, f) :: rest =>
        call_slot f self
          {| calls := calls p; single_shots := rest;
             quit_requested := quit_requested p |}
      end
  | CloseRequested => closeEvent self
  | MousePress lb pos => ret (mousePressEvent lb pos self)
  | MouseMove _ => ret self
  | MouseRelease lb => ret (mouseReleaseEvent lb self)
  end.

(** [app.exec()] fed with the events [evs]: it returns 0 once
    [QApplication.quit] has been called, and is still waiting when the
    events are used up before that. *)
Fixpoint exec (evs : list event) (self : TaskDialog) (p : Process)
  {struct evs} : exec_state * TaskDialog * Process :=
  if quit_requested p then (Returned 0, self, p)
  else
    match evs with
    | [] => (Waiting, self, p)
    | ev :: evs' =>
      match dispatch ev self p with
      | (Ok self', p') => exec evs' self' p'
      | (Raise e, p') => (SlotRaised e, self, p')
      end
    end.

(** The body of the [try] block at the top of [main]. *)
Definition startup_query : M unit :=
  result <- subprocess_run count_query ;;
  n <- int (Py.strip (stdout result)) ;;
  if 0 <? n then sys_exit 0 else ret tt.

(** The [try] block with its bare [except: pass]. *)
Definition startup_check : M unit :=
  try_except startup_query (ret tt).

(** [main] up to and including [dialog.show()]; the [QApplication]
    object itself carries no state of interest here. *)
Definition startup : M TaskDialog :=
  startup_check ;;
  let dialog := TaskDialog__init__ in
  ret (show dialog).

(** [main()], with the events the event loop receives; it ends in
    [sys.exit(app.exec())].  An exception that reaches the top is kept in
    [Aborted]. *)
Definition main (evs : list event) (p : Process) : world :=
  match startup p with
  | (Raise (SystemExit code), p1) =>
    {| state := Exited code; window := None; process := p1 |}
  | (Raise (Error e), p1) =>
    {| state := Aborted (Error e); window := None; process := p1 |}
  | (Ok dialog, p1) =>
    match exec evs dialog p1 with
    | (Returned code, d, p2) =>
      {| state := Exited code; window := Some d; process := p2 |}
    | (Waiting, d, p2) =>
      {| state := Running; window := Some d; process := p2 |}
    | (SlotRaised e, d, p2) =>
      {| state := Aborted e; window := Some d; process := p2 |}
    end
  end.

End Program.

(** A freshly started process. *)
Definition fresh : Process :=
  {| calls := []; single_shots := []; quit_requested := false |}.

(** A system on which every command completes with the given status and
    output. *)
Definition always (code : Z) (out err : str) : system :=
  fun _ _ => RunCompleted {| returncode := code; stdout := out; stderr := err |}.

(** A system on which no command can be started. *)
Definition unavailable (msg : str) : system :=
  fun _ _ => RunRaises (OSError msg).

(** The text of a non-negative count as the external tool prints it: its
    decimal digits, most significant first. *)
Definition decimal (ds : list N) : str := map (fun d => (0x30 + d)%N) ds.

(** ** Splitting on whitespace, as the specification words it

    [whitespace_tokens s ts]: [ts] are the maximal runs of non-whitespace
    characters of [s], in order, each taken as it stands. *)
Definition word (t : str) : Prop :=
  t <> [] /\ forallb (fun c => negb (Py.isspace c)) t = true.

Definition at_boundary (r : str) : Prop :=
  match r with
  | [] => True
  | c :: _ => Py.isspace c = true
  end.

Inductive whitespace_tokens : str -> list str -> Prop :=
| tokens_end : whitespace_tokens [] []
| tokens_skip c s ts :
    Py.isspace c = true ->
    whitespace_tokens s ts ->
    whitespace_tokens (c :: s) ts
| tokens_word t r ts :
    word t ->
    at_boundary r ->
    whitespace_tokens r ts ->
    whitespace_tokens (t ++ r) (t :: ts).

(** Sample diagnostics: of the operating system when the [task]
    executable is missing, and of the external tool on a bad due date. *)
Definition no_such_file : str :=
  lit "[Errno 2] No such file or directory: 'task'".

Definition invalid_date : str := lit "invalid date".

Definition missing_executable : error := OSError no_such_file.

Definition rejected : CompletedProcess :=
  {| returncode := 1; stdout := []; stderr := invalid_date |}.

(** The dialog as shown at start-up, after the user has typed [s]. *)
Definition typed (s : str) : TaskDialog :=
  set_entry s (show TaskDialog__init__).

(** The dialog once [QApplication.quit()] has run: a window that was
    visible has been closed, which stopped both timers and hid it. *)
Definition closed_by_quit (self : TaskDialog) : TaskDialog :=
  if visible self then set_visible false (stop_timers self) else self.

(** The command [on_submit] starts for the text in the line edit. *)
Definition submitted_command (self : TaskDialog) : argv :=
  add_command (Py.split (Py.strip (entry self))).

(** The process is over and no window was ever created. *)
Definition exited_without_window (w : world) : Prop :=
  (exists code, state w = Exited code) /\ window w = None.

(** The start-up query gave no count: it could not be run, or its output
    is no number. *)
Definition no_count (o : run_outcome) : Prop :=
  (exists e, o = RunRaises e) \/
  (exists r, o = RunCompleted r /\ Py.int (Py.strip (stdout r)) = None).

(** ** Dragging the window

    The coordinates of a [QPoint] are 32-bit signed integers, and so is
    their difference: it wraps around. *)
Definition int32 (z : Z) : Z := (z + 2 ^ 31) mod 2 ^ 32 - 2 ^ 31.

(** [QPoint.__sub__] *)
Definition QPoint_sub (a b : Z * Z) : Z * Z :=
  (int32 (fst a - fst b), int32 (snd a - snd b)).

(** [mouseMoveEvent]: while dragging, the window is moved to the global
    cursor position minus the offset taken at the press.  The position of
    the window on the screen is kept beside the dialog. *)
Definition mouseMoveEvent (global : Z * Z) (self : TaskDialog) (pos : Z * Z)
  : Z * Z :=
  if dragging self then QPoint_sub global (offset self) else pos.

(** A coordinate that a [QPoint] can hold. *)
Definition in_int32 (z : Z) : Prop := - 2 ^ 31 <= z < 2 ^ 31.

(** One event as the mouse handlers see it; the other events leave the
    drag state and the position alone. *)
Definition mouse_step (ev : event) (w : TaskDialog * (Z * Z))
  : TaskDialog * (Z * Z) :=
  match ev with
  | MousePress lb pos => (mousePressEvent lb pos (fst w), snd w)
  | MouseMove global => (fst w, mouseMoveEvent global (fst w) (snd w))
  | MouseRelease lb => (mouseReleaseEvent lb (fst w), snd w)
  | _ => w
  end.

Definition mouse_steps (evs : list event) (w : TaskDialog * (Z * Z))
  : TaskDialog * (Z * Z) :=
  fold_left (fun w ev => mouse_step ev w) evs w.

(** ** Vocabulary of the further properties *)

(** The timers as [__init__] sets them up, whatever their activity. *)
Definition wired (self : TaskDialog) : Prop :=
  interval (check_timer self) = 2000 /\
  timeout (check_timer self) = check_tasks_external_slot /\
  interval (top_timer self) = 500 /\
  timeout (top_timer self) = ensure_on_top_slot.

(** What holds of the dialog and the process all along a run: the timers
    are wired as at construction, they are both running or both stopped,
    they are stopped only once quitting is requested, and every pending
    one-shot timer is the one [on_submit] registers. *)
Definition consistent (self : TaskDialog) (p : Process) : Prop :=
  wired self /\
  active (check_timer self) = active (top_timer self) /\
  (active (check_timer self) = false -> quit_requested p = true) /\
  Forall (fun shot => shot = (1000, QApplication_quit_slot)) (single_shots p).

(** The window is shown, wired as at construction, no one-shot timer is
    pending and quitting is not requested. *)
Definition open_idle (self : TaskDialog) (p : Process) : Prop :=
  wired self /\ visible self = true /\
  single_shots p = [] /\ quit_requested p = false.

(** A system on which the count query never gives a positive count. *)
Definition no_task (os : system) : Prop :=
  forall history,
    match os history count_query with
    | RunRaises _ => True
    | RunCompleted r =>
      match Py.int (Py.strip (stdout r)) with
      | Some n => n <= 0
      | None => True
      end
    end.

(** The child processes this program may start. *)
Definition task_command (cmd : argv) : Prop :=
  cmd = count_query \/
  exists tokens, cmd = [lit "task"; lit "add"] ++ tokens /\ Forall word tokens.

(** [" ".join(ts)] *)
Fixpoint join_spaces (ts : list str) : str :=
  match ts with
  | [] => []
  | t :: ts' =>
    match ts' with
    | [] => t
    | _ :: _ => t ++ 0x20%N :: join_spaces ts'
    end
  end.

(** The label [show_success] puts in the status line. *)
Definition success_label : QLabel :=
  {| text := lit "✓ 任务已成功添加！";
     styleSheet := lit "color: #26a269; font-weight: bold;" |}.

(** * Properties *)

Ltac run :=
  unfold bind, ret, raise, sys_exit, try_except, try_except_Exception,
    subprocess_run, int, QTimer_singleShot, QCoreApplication_exit.

(** ** [strip] and [split] *)

Lemma lstrip_nil (s : str) :
  Py.lstrip s = [] <-> forallb Py.isspace s = true.
Proof.
  induction s as [|c s IH]; simpl.
  - tauto.
  - destruct (Py.isspace c); simpl.
    + exact IH.
    + split; discriminate.
Qed.

Lemma lstrip_head (s : str) c r :
  Py.lstrip s = c :: r -> Py.isspace c = false.
Proof.
  induction s as [|a s IH]; simpl.
  - discriminate.
  - destruct (Py.isspace a) eqn:Ha.
    + exact IH.
    + intros E. injection E as -> _. exact Ha.
Qed.

Lemma forallb_rev {A} (f : A -> bool) (l : list A) :
  forallb f (rev l) = forallb f l.
Proof.
  induction l as [|a l IH]; simpl.
  - reflexivity.
  - rewrite forallb_app, IH. simpl. rewrite andb_true_r. apply andb_comm.
Qed.

Lemma rev_nil_inv {A} (l : list A) : rev l = [] -> l = [].
Proof.
  intros E. rewrite <- (rev_involutive l), E. reflexivity.
Qed.

(** The trimmed text is empty exactly when the text is empty or holds
    whitespace only. *)
Lemma strip_nil (s : str) :
  Py.strip s = [] <-> forallb Py.isspace s = true.
Proof.
  unfold Py.strip, Py.rstrip. split.
  - intros E. apply rev_nil_inv in E. apply lstrip_nil in E.
    rewrite forallb_rev in E.
    destruct (Py.lstrip s) as [|c r] eqn:L.
    + apply lstrip_nil. exact L.
    + apply lstrip_head in L. simpl in E. rewrite L in E. discriminate.
  - intros H. apply lstrip_nil in H. rewrite H. reflexivity.
Qed.

Lemma truthy_strip (s : str) :
  Py.truthy (Py.strip s) = negb (forallb Py.isspace s).
Proof.
  destruct (forallb Py.isspace s) eqn:E.
  - apply strip_nil in E. rewrite E. reflexivity.
  - destruct (Py.strip s) eqn:S; [|reflexivity].
    apply strip_nil in S. congruence.
Qed.

Lemma split_from_sound (s : str) :
  whitespace_tokens s (Py.split_from [] s) /\
  forall cur, cur <> [] ->
    exists t r,
      s = t ++ r /\
      forallb (fun c => negb (Py.isspace c)) t = true /\
      at_boundary r /\
      Py.split_from cur s = (rev cur ++ t) :: Py.split_from [] r /\
      whitespace_tokens r (Py.split_from [] r).
Proof.
  induction s as [|c s [IH0 IH1]].
  - split; [constructor|].
    intros cur Hcur. exists [], []. simpl.
    destruct cur; [congruence|].
    rewrite app_nil_r. repeat split; constructor.
  - destruct (Py.isspace c) eqn:Hc.
    + split.
      * simpl. rewrite Hc. apply tokens_skip; assumption.
      * intros cur Hcur. exists [], (c :: s). simpl. rewrite Hc.
        destruct cur; [congruence|].
        rewrite app_nil_r. repeat split; try assumption.
        apply tokens_skip; assumption.
    + split.
      * simpl. rewrite Hc.
        destruct (IH1 [c]) as (t & r & -> & Ht & Hr & E & Hts);
          [discriminate|].
        rewrite E. simpl.
        apply (tokens_word (c :: t) r); try assumption.
        split; [discriminate|]. simpl. rewrite Hc, Ht. reflexivity.
      * intros cur Hcur. simpl. rewrite Hc.
        destruct (IH1 (c :: cur)) as (t & r & -> & Ht & Hr & E & Hts);
          [discriminate|].
        exists (c :: t), r. simpl. rewrite Hc, Ht.
        repeat split; try assumption.
        rewrite E. simpl. rewrite <- app_assoc. reflexivity.
Qed.

(** [split] yields the whitespace-separated tokens of the text. *)
Lemma split_tokens (s : str) : whitespace_tokens s (Py.split s).
Proof. apply split_from_sound. Qed.

Lemma split_from_word (t : str) :
  forall cur r,
    forallb (fun c => negb (Py.isspace c)) t = true ->
    at_boundary r ->
    Py.split_from cur (t ++ r) =
    match rev cur ++ t with
    | [] => Py.split_from [] r
    | _ :: _ => (rev cur ++ t) :: Py.split_from [] r
    end.
Proof.
  induction t as [|a t IH]; intros cur r Ht Hr.
  - simpl. rewrite app_nil_r.
    destruct r as [|c r]; simpl.
    + destruct cur as [|x cur]; [reflexivity|].
      destruct (rev (x :: cur)) eqn:E; [|reflexivity].
      apply rev_nil_inv in E. discriminate.
    + simpl in Hr. rewrite Hr.
      destruct cur as [|x cur]; [reflexivity|].
      destruct (rev (x :: cur)) eqn:E; [|reflexivity].
      apply rev_nil_inv in E. discriminate.
  - simpl in Ht. apply andb_true_iff in Ht as [Ha Ht].
    apply negb_true_iff in Ha.
    simpl. rewrite Ha. rewrite (IH (a :: cur) r Ht Hr).
    simpl. rewrite <- app_assoc. simpl.
    destruct (rev cur ++ a :: t) eqn:E; [|reflexivity].
    apply app_eq_nil in E as [_ E]. discriminate.
Qed.

(** The tokens of a text are unique: the relation is the graph of
    [split]. *)
Lemma tokens_split (s : str) (ts : list str) :
  whitespace_tokens s ts -> ts = Py.split s.
Proof.
  unfold Py.split.
  induction 1 as [|c s ts Hc _ IH|t r ts [Hne Ht] Hr _ IH].
  - reflexivity.
  - simpl. rewrite Hc. exact IH.
  - rewrite (split_from_word t [] r Ht Hr). simpl.
    destruct t; [congruence|]. rewrite IH. reflexivity.
Qed.

(** Every token is a non-empty run without whitespace, and the tokens in
    order are the non-whitespace characters of the text in order. *)
Lemma tokens_words (s : str) (ts : list str) :
  whitespace_tokens s ts -> Forall word ts.
Proof.
  induction 1; auto.
Qed.

Lemma tokens_concat (s : str) (ts : list str) :
  whitespace_tokens s ts ->
  List.concat ts = filter (fun c => negb (Py.isspace c)) s.
Proof.
  induction 1 as [|c s ts Hc _ IH|t r ts [Hne Ht] Hr _ IH].
  - reflexivity.
  - simpl. rewrite Hc. exact IH.
  - simpl. rewrite filter_app, IH. f_equal.
    clear -Ht. induction t as [|a t IHt]; [reflexivity|].
    simpl in *. apply andb_true_iff in Ht as [Ha Ht].
    rewrite Ha, <- IHt by assumption. reflexivity.
Qed.

(** ** [int] on decimal numerals *)

Lemma transform_decimal (ds : list N) :
  Forall (fun d => (d < 10)%N) ds ->
  Py.transform_decimal_and_space_to_ascii (decimal ds) = decimal ds.
Proof.
  induction 1 as [|d ds Hd _ IH]; [reflexivity|].
  unfold decimal in *.
  cbn [map Py.transform_decimal_and_space_to_ascii].
  replace (127 <? 48 + d)%N with false by (symmetry; apply N.ltb_ge; lia).
  rewrite IH. reflexivity.
Qed.

Lemma scan_decimal (ds : list N) :
  Forall (fun d => (d < 10)%N) ds ->
  forall acc, Py.scan_digits false acc (decimal ds) = Some (rev acc ++ ds, []).
Proof.
  induction 1 as [|d ds Hd _ IH]; intros acc.
  - simpl. rewrite app_nil_r. reflexivity.
  - unfold decimal in *. cbn [map Py.scan_digits].
    unfold Py.is_ascii_digit.
    replace (48 <=? 48 + d)%N with true by (symmetry; apply N.leb_le; lia).
    replace (48 + d <=? 57)%N with true by (symmetry; apply N.leb_le; lia).
    cbn [andb]. rewrite IH. cbn [rev]. rewrite <- app_assoc.
    replace (48 + d - 48)%N with d by lia. reflexivity.
Qed.

Lemma digit_cases (d : N) :
  (d < 10)%N ->
  In d [0; 1; 2; 3; 4; 5; 6; 7; 8; 9]%N.
Proof.
  intros H. simpl.
  assert (d = 0 \/ d = 1 \/ d = 2 \/ d = 3 \/ d = 4 \/ d = 5 \/ d = 6
          \/ d = 7 \/ d = 8 \/ d = 9)%N as C by lia.
  intuition auto.
Qed.

(** A run of at most 4300 decimal digits parses to the number it
    denotes. *)
Lemma int_decimal (ds : list N) :
  ds <> [] ->
  Forall (fun d => (d < 10)%N) ds ->
  (Z.of_nat (List.length ds) <= Py.int_max_str_digits)%Z ->
  Py.int (decimal ds) = Some (Py.digits_value ds).
Proof.
  intros Hne Hds Hlen. unfold Py.int.
  rewrite (transform_decimal ds Hds).
  destruct ds as [|d ds]; [congruence|].
  pose proof (scan_decimal (d :: ds) Hds []) as Hscan.
  assert ((Py.int_max_str_digits <? Z.of_nat (List.length (d :: ds)))%Z
          = false) as Hltb by (apply Z.ltb_ge; exact Hlen).
  inversion Hds as [|? ? Hd _]; subst.
  unfold decimal in *. cbn [map] in Hscan |- *. fold (decimal ds) in *.
  generalize dependent (decimal ds). intros tl Hscan.
  apply digit_cases in Hd. simpl in Hd.
  decompose [or] Hd; try contradiction; subst d;
    cbn -[Py.digits_value Z.ltb Z.of_nat List.length] in Hscan |- *;
    rewrite Hscan; cbn [Py.skip_c_spaces]; rewrite Hltb; reflexivity.
Qed.

Lemma lstrip_words (s : str) :
  forallb (fun c => negb (Py.isspace c)) s = true -> Py.lstrip s = s.
Proof.
  destruct s as [|c s]; [reflexivity|].
  simpl. intros H. apply andb_true_iff in H as [H _].
  apply negb_true_iff in H. rewrite H. reflexivity.
Qed.

Lemma decimal_words (ds : list N) :
  Forall (fun d => (d < 10)%N) ds ->
  forallb (fun c => negb (Py.isspace c)) (decimal ds) = true.
Proof.
  induction 1 as [|d ds Hd _ IH]; [reflexivity|].
  unfold decimal in *. cbn [map forallb]. rewrite IH, andb_true_r.
  apply digit_cases in Hd. simpl in Hd.
  decompose [or] Hd; try contradiction; subst d; reflexivity.
Qed.

(** A line holding a decimal numeral is trimmed to the numeral. *)
Lemma strip_decimal_line (ds : list N) :
  ds <> [] ->
  Forall (fun d => (d < 10)%N) ds ->
  Py.strip (decimal ds ++ [0x0A%N]) = decimal ds.
Proof.
  intros Hne Hds. pose proof (decimal_words ds Hds) as Hw.
  unfold Py.strip, Py.rstrip.
  assert (Py.lstrip (decimal ds ++ [10%N]) = decimal ds ++ [10%N]) as ->.
  { destruct ds as [|d ds]; [congruence|].
    unfold decimal in *. cbn [map app forallb] in *.
    apply andb_true_iff in Hw as [Hw _]. apply negb_true_iff in Hw.
    cbn [Py.lstrip]. rewrite Hw. reflexivity. }
  rewrite rev_app_distr. cbn [rev app Py.lstrip].
  change (Py.isspace 10%N) with true. cbn iota.
  rewrite lstrip_words by (rewrite forallb_rev; exact Hw).
  apply rev_involutive.
Qed.

(** ** The qualifying-task predicate *)

Lemma has_valid_tasks_raises os p e :
  os (calls p) count_query = RunRaises e ->
  has_valid_tasks os p = (Ok false, started count_query p).
Proof.
  intros H. unfold has_valid_tasks. run. rewrite H. reflexivity.
Qed.

Lemma has_valid_tasks_completed os p r :
  os (calls p) count_query = RunCompleted r ->
  has_valid_tasks os p =
  (Ok match Py.int (Py.strip (stdout r)) with
      | Some n => 0 <? n
      | None => false
      end, started count_query p).
Proof.
  intros H. unfold has_valid_tasks. run. rewrite H.
  destruct (Py.int (Py.strip (stdout r))); reflexivity.
Qed.

(** The predicate never raises and starts exactly one child process. *)
Lemma has_valid_tasks_total os p :
  exists b, has_valid_tasks os p = (Ok b, started count_query p).
Proof.
  destruct (os (calls p) count_query) as [e|r] eqn:H.
  - eexists. apply (has_valid_tasks_raises os p e H).
  - eexists. apply (has_valid_tasks_completed os p r H).
Qed.

Lemma has_valid_tasks_fst os p b :
  fst (has_valid_tasks os p) = Ok b ->
  has_valid_tasks os p = (Ok b, started count_query p).
Proof.
  destruct (has_valid_tasks_total os p) as [b' E]. rewrite E. simpl.
  intros [= ->]. reflexivity.
Qed.

(** X5: when the external tool prints a count as a decimal numeral on a
    line of its own, the predicate tells whether that count is positive,
    whatever the exit status and the standard error of the tool. *)
Lemma has_valid_tasks_printed_count os p ds code err :
  ds <> [] ->
  Forall (fun d => (d < 10)%N) ds ->
  Z.of_nat (List.length ds) <= Py.int_max_str_digits ->
  os (calls p) count_query =
  RunCompleted
    {| returncode := code; stdout := decimal ds ++ [0x0A%N]; stderr := err |} ->
  has_valid_tasks os p = (Ok (0 <? Py.digits_value ds), started count_query p).
Proof.
  intros Hne Hds Hlen Hos.
  rewrite (has_valid_tasks_completed os p _ Hos). cbn [stdout].
  rewrite (strip_decimal_line ds Hne Hds), (int_decimal ds Hne Hds Hlen).
  reflexivity.
Qed.

(** C4: the predicate is true exactly when the query completes and its
    trimmed standard output parses as an integer greater than 0; a query
    that cannot be run, or output that is no number, gives false.  The
    predicate always returns. *)
Theorem has_valid_tasks_iff (os : system) (p : Process) :
  exists b,
    has_valid_tasks os p = (Ok b, started count_query p) /\
    (b = true <->
     exists r n,
       os (calls p) count_query = RunCompleted r /\
       Py.int (Py.strip (stdout r)) = Some n /\
       0 < n).
Proof.
  destruct (os (calls p) count_query) as [e|r] eqn:H.
  - exists false. split; [apply (has_valid_tasks_raises os p e H)|].
    split; [discriminate|]. intros (r & n & [=] & _).
  - rewrite (has_valid_tasks_completed os p r H).
    destruct (Py.int (Py.strip (stdout r))) as [n|] eqn:E.
    + exists (0 <? n). split; [reflexivity|]. split.
      * intros Hn. exists r, n. repeat split; try assumption.
        apply Z.ltb_lt. exact Hn.
      * intros (r' & n' & [= <-] & E' & Hn).
        rewrite E in E'. injection E' as <-. apply Z.ltb_lt. exact Hn.
    + exists false. split; [reflexivity|]. split; [discriminate|].
      intros (r' & n' & [= <-] & E' & _). congruence.
Qed.

(** ** Start-up *)

(** The bare [except] of the start-up check swallows whatever the [try]
    block raises, [SystemExit] included: the check always falls through. *)
Lemma startup_check_falls_through os p :
  startup_check os p = (Ok tt, started count_query p).
Proof.
  unfold startup_check, startup_query. run.
  destruct (os (calls p) count_query) as [e|r]; [reflexivity|].
  destruct (Py.int (Py.strip (stdout r))) as [n|]; [|reflexivity].
  run. destruct (0 <? n); reflexivity.
Qed.

Lemma startup_shows os p :
  startup os p = (Ok (show TaskDialog__init__), started count_query p).
Proof.
  unfold startup, bind. rewrite startup_check_falls_through. reflexivity.
Qed.

Lemma main_shows os :
  main os [] fresh =
  {| state := Running;
     window := Some (show TaskDialog__init__);
     process := started count_query fresh |}.
Proof.
  unfold main. rewrite startup_shows. reflexivity.
Qed.

Lemma main_window os evs : window (main os evs fresh) <> None.
Proof.
  unfold main. rewrite startup_shows.
  destruct (exec os evs _ _) as [[[] d] p]; discriminate.
Qed.

(** C1: when the start-up query prints the count 2, the [try] block does
    raise [SystemExit(0)], but the bare [except] catches it: the dialog is
    created and shown and the process keeps running.  It exits (with code
    0, the window having been shown and then closed by
    [QApplication.quit]) only when the check timer fires. *)
Theorem startup_positive_count_shows_window :
  let os := always 0 (lit "2" ++ [0x0A%N]) [] in
  fst (startup_query os fresh) = Raise (SystemExit 0) /\
  main os [] fresh =
  {| state := Running;
     window := Some (show TaskDialog__init__);
     process := started count_query fresh |} /\
  visible (show TaskDialog__init__) = true /\
  main os [TimerTimeout TopTimer; TimerTimeout CheckTimer] fresh =
  {| state := Exited 0;
     window :=
       Some (set_visible false
               (stop_timers (ensure_on_top (show TaskDialog__init__))));
     process := {| calls := [count_query; count_query];
                   single_shots := [];
                   quit_requested := true |} |}.
Proof.
  cbv zeta. split; [|split; [|split]].
  - vm_compute. reflexivity.
  - apply main_shows.
  - reflexivity.
  - vm_compute. reflexivity.
Qed.

(** C2, as stated, fails: with a query that cannot be started, and with
    one that prints text that is no number, the process has not exited
    and the window exists. *)
Lemma startup_failure_not_silent :
  ~ exited_without_window (main (unavailable no_such_file) [] fresh) /\
  ~ exited_without_window (main (always 0 (lit "no tasks") []) [] fresh).
Proof.
  split; intros [_ H]; rewrite main_shows in H; discriminate.
Qed.

(** C2, amended: when the start-up query cannot be run or prints text
    that is no number, the dialog is created and shown, the process is
    running, and whatever happens next the window has been created. *)
Theorem startup_failure_shows_window (os : system) :
  no_count (os [] count_query) ->
  main os [] fresh =
  {| state := Running;
     window := Some (show TaskDialog__init__);
     process := started count_query fresh |} /\
  visible (show TaskDialog__init__) = true /\
  forall evs, window (main os evs fresh) <> None.
Proof.
  intros _. split; [apply main_shows|]. split; [reflexivity|].
  intros evs. apply main_window.
Qed.

Lemma startup_failure_shows_window_witness :
  no_count (unavailable no_such_file [] count_query) /\
  main (unavailable no_such_file) [] fresh =
  {| state := Running;
     window := Some (show TaskDialog__init__);
     process := started count_query fresh |}.
Proof.
  assert (no_count (unavailable no_such_file [] count_query)) as H.
  { left. eexists. reflexivity. }
  split; [exact H|].
  exact (proj1 (startup_failure_shows_window _ H)).
Defined.

(** C3: when the start-up query prints 0, prints text that is no number,
    or cannot be run, the dialog is created and shown. *)
Theorem startup_no_task_shows_window (os : system) :
  (exists r, os [] count_query = RunCompleted r /\
             Py.int (Py.strip (stdout r)) = Some 0) \/
  (exists r, os [] count_query = RunCompleted r /\
             Py.int (Py.strip (stdout r)) = None) \/
  (exists e, os [] count_query = RunRaises e) ->
  exists dialog,
    window (main os [] fresh) = Some dialog /\
    visible dialog = true /\
    state (main os [] fresh) = Running /\
    calls (process (main os [] fresh)) = [count_query].
Proof.
  intros _. exists (show TaskDialog__init__).
  rewrite main_shows. repeat split.
Qed.

Lemma startup_no_task_shows_window_witness :
  exists dialog,
    window (main (always 0 (lit "0" ++ [0x0A%N]) []) [] fresh) = Some dialog /\
    visible dialog = true /\
    state (main (always 0 (lit "0" ++ [0x0A%N]) []) [] fresh) = Running /\
    calls (process (main (always 0 (lit "0" ++ [0x0A%N]) []) [] fresh))
    = [count_query].
Proof.
  apply startup_no_task_shows_window.
  left. eexists. split; [reflexivity|]. vm_compute. reflexivity.
Defined.

(** ** Submitting *)

Lemma truthy_nonempty (s : str) : s <> [] -> Py.truthy s = true.
Proof. destruct s; [congruence|reflexivity]. Qed.



(** C6: for every non-empty input (one that is not blank: the blank
    inputs are those of C5, which start no command), the first command
    submit starts is [task add] followed by the whitespace-separated
    tokens of the trimmed input, in order and as they stand. *)
Theorem submit_passes_tokens (os : system) (self : TaskDialog) (p : Process) :
  Py.strip (entry self) <> [] ->
  let tokens := Py.split (Py.strip (entry self)) in
  whitespace_tokens (Py.strip (entry self)) tokens /\
  exists rest,
    calls (snd (on_submit os self p)) =
    calls p ++ ([lit "task"; lit "add"] ++ tokens) :: rest.
Proof.
  intros H tokens. split; [apply split_tokens|].
  unfold on_submit. rewrite (truthy_nonempty _ H). cbn [negb].
  fold tokens. change ([lit "task"; lit "add"] ++ tokens)
    with (add_command tokens).
  run. destruct (os (calls p) (add_command tokens)) as [e|r].
  - exists []. reflexivity.
  - destruct (returncode r =? 0); cbn [negb].
    + destruct (has_valid_tasks_total os (started (add_command tokens) p))
        as [b E].
      rewrite E.
      exists [count_query].
      destruct b; cbn; rewrite <- app_assoc; reflexivity.
    + exists []. reflexivity.
Qed.

Lemma submit_passes_tokens_witness :
  Py.strip (entry (typed (lit " buy  milk due:today "))) <> [] /\
  exists rest,
    calls (snd (on_submit (always 0 (lit "1") [])
                  (typed (lit " buy  milk due:today ")) fresh)) =
    calls fresh
    ++ ([lit "task"; lit "add"]
        ++ Py.split (Py.strip (entry (typed (lit " buy  milk due:today ")))))
       :: rest.
Proof.
  assert (Py.strip (entry (typed (lit " buy  milk due:today "))) <> [])
    as H by (vm_compute; discriminate).
  split; [exact H|].
  exact (proj2 (submit_passes_tokens (always 0 (lit "1") [])
                  (typed (lit " buy  milk due:today ")) fresh H)).
Defined.

Lemma on_submit_completed os self p r :
  Py.strip (entry self) <> [] ->
  os (calls p) (submitted_command self) = RunCompleted r ->
  on_submit os self p =
  if returncode r =? 0 then
    match has_valid_tasks os (started (submitted_command self) p) with
    | (Ok true, p') =>
      (Ok (show_success self),
       {| calls := calls p';
          single_shots := single_shots p' ++ [(1000, QApplication_quit_slot)];
          quit_requested := quit_requested p' |})
    | (Ok false, p') =>
      (Ok (set_entry []
             (show_warning
                (lit "任务已添加，但到期时间不在未来 23 小时内") self)), p')
    | (Raise e, p') => (Raise e, p')
    end
  else
    (Ok (show_error (lit "添加失败：" ++ stderr r) self),
     started (submitted_command self) p).
Proof.
  intros H Hos. unfold on_submit. rewrite (truthy_nonempty _ H). cbn [negb].
  fold (submitted_command self). run. rewrite Hos.
  destruct (returncode r =? 0); cbn [negb]; [|reflexivity].
  destruct (has_valid_tasks os _) as [[[]|] p']; reflexivity.
Qed.

Lemma on_submit_raises os self p e :
  Py.strip (entry self) <> [] ->
  os (calls p) (submitted_command self) = RunRaises e ->
  on_submit os self p =
  (Ok (show_error (lit "执行错误：" ++ error_text e) self),
   started (submitted_command self) p).
Proof.
  intros H Hos. unfold on_submit. rewrite (truthy_nonempty _ H). cbn [negb].
  fold (submitted_command self). run. rewrite Hos. reflexivity.
Qed.



Lemma started_twice (c1 c2 : argv) (p : Process) :
  started c2 (started c1 p) =
  {| calls := calls p ++ [c1; c2];
     single_shots := single_shots p;
     quit_requested := quit_requested p |}.
Proof.
  unfold started. simpl. rewrite <- app_assoc. reflexivity.
Qed.

(** Once the loop has been told to exit, it returns 0 without delivering
    anything more. *)
Lemma exec_quit os evs self p :
  quit_requested p = true -> exec os evs self p = (Returned 0, self, p).
Proof.
  intros H. destruct evs; simpl; rewrite H; reflexivity.
Qed.

Lemma exec_step os ev evs self p self' p' :
  quit_requested p = false ->
  dispatch os ev self p = (Ok self', p') ->
  exec os (ev :: evs) self p = exec os evs self' p'.
Proof.
  intros Hq Hd. simpl. rewrite Hq, Hd. reflexivity.
Qed.

(** [QApplication.quit()] closes the window if it is shown and tells the
    loop to exit. *)
Lemma QApplication_quit_closes self p :
  QApplication_quit self p =
  (Ok (closed_by_quit self),
   {| calls := calls p;
      single_shots := single_shots p;
      quit_requested := true |}).
Proof.
  unfold QApplication_quit, closed_by_quit, closeEvent. run.
  destruct (visible self); reflexivity.
Qed.

Lemma closed_by_quit_hidden self : visible (closed_by_quit self) = false.
Proof.
  unfold closed_by_quit. destruct (visible self) eqn:E; [reflexivity|exact E].
Qed.

Lemma closed_by_quit_keeps self :
  entry (closed_by_quit self) = entry self /\
  status_label (closed_by_quit self) = status_label self.
Proof.
  unfold closed_by_quit. destruct (visible self); split; reflexivity.
Qed.

Lemma closed_by_quit_stops self :
  visible self = true ->
  active (check_timer (closed_by_quit self)) = false /\
  active (top_timer (closed_by_quit self)) = false.
Proof.
  unfold closed_by_quit. intros ->. split; reflexivity.
Qed.

(** C8: when the add command ends with exit code 0 and the predicate,
    run again, is true, submit leaves the success message in the status
    label (input, timers and visibility as before) and registers a
    one-shot timer of 1000 ms on [QApplication.quit]; when that timer
    fires on the shown window, the window is closed (timers stopped,
    window hidden, success message still in the label) and the event loop
    returns 0. *)
Theorem submit_success (os : system) (self : TaskDialog) (p : Process)
    (r : CompletedProcess) :
  Py.strip (entry self) <> [] ->
  os (calls p) (submitted_command self) = RunCompleted r ->
  returncode r = 0 ->
  fst (has_valid_tasks os (started (submitted_command self) p)) = Ok true ->
  (exists self',
      on_submit os self p =
      (Ok self',
       {| calls := calls p ++ [submitted_command self; count_query];
          single_shots := single_shots p ++ [(1000, QApplication_quit_slot)];
          quit_requested := quit_requested p |}) /\
      status_label self' =
      {| text := lit "✓ 任务已成功添加！";
         styleSheet := lit "color: #26a269; font-weight: bold;" |} /\
      entry self' = entry self /\
      check_timer self' = check_timer self /\
      top_timer self' = top_timer self /\
      visible self' = visible self) /\
  forall evs,
    quit_requested p = false ->
    single_shots p = [] ->
    visible self = true ->
    exists closed,
      exec os (Clicked :: SingleShotTimeout :: evs) self p =
      (Returned 0, closed,
       {| calls := calls p ++ [submitted_command self; count_query];
          single_shots := [];
          quit_requested := true |}) /\
      status_label closed =
      {| text := lit "✓ 任务已成功添加！";
         styleSheet := lit "color: #26a269; font-weight: bold;" |} /\
      active (check_timer closed) = false /\
      active (top_timer closed) = false /\
      visible closed = false.
Proof.
  intros H Hos Hr Hvalid.
  assert (on_submit os self p =
          (Ok (show_success self),
           {| calls := calls p ++ [submitted_command self; count_query];
              single_shots :=
                single_shots p ++ [(1000, QApplication_quit_slot)];
              quit_requested := quit_requested p |})) as E.
  { rewrite (on_submit_completed os self p r H Hos), Hr. cbn [Z.eqb].
    rewrite (has_valid_tasks_fst _ _ _ Hvalid), started_twice. reflexivity. }
  split.
  - rewrite E. eexists. split; [reflexivity|]. repeat split.
  - intros evs Hq Hs Hv.
    exists (closed_by_quit (show_success self)).
    rewrite (exec_step os Clicked _ self p _ _ Hq E).
    rewrite Hs, Hq.
    erewrite exec_step;
      [|reflexivity
       |cbn [dispatch single_shots app call_slot];
        apply QApplication_quit_closes].
    split; [apply exec_quit; reflexivity|].
    unfold closed_by_quit. cbn [show_success set_status_label visible].
    rewrite Hv. repeat split.
Qed.

Lemma submit_success_witness :
  exists closed,
    exec (always 0 (lit "1") []) (Clicked :: SingleShotTimeout :: [])
      (typed (lit "buy milk due:today")) fresh =
    (Returned 0, closed,
     {| calls := calls fresh
                 ++ [submitted_command (typed (lit "buy milk due:today"));
                     count_query];
        single_shots := [];
        quit_requested := true |}) /\
    status_label closed =
    {| text := lit "✓ 任务已成功添加！";
       styleSheet := lit "color: #26a269; font-weight: bold;" |} /\
    active (check_timer closed) = false /\
    active (top_timer closed) = false /\
    visible closed = false.
Proof.
  assert (Py.strip (entry (typed (lit "buy milk due:today"))) <> []) as H
    by (vm_compute; discriminate).
  refine (proj2 (submit_success (always 0 (lit "1") [])
                   (typed (lit "buy milk due:today")) fresh
                   {| returncode := 0; stdout := lit "1"; stderr := [] |}
                   H eq_refl eq_refl _) [] eq_refl eq_refl eq_refl).
  vm_compute. reflexivity.
Defined.

(** C9: when the add command ends with exit code 0 and the predicate,
    run again, is false, submit leaves in the status label the warning
    that the task is not due within 23 hours and empties the line edit;
    the timers and the visibility of the window are as before, no
    one-shot timer is added, quitting is not requested, and the event
    loop goes on waiting. *)
Theorem submit_not_due (os : system) (self : TaskDialog) (p : Process)
    (r : CompletedProcess) :
  Py.strip (entry self) <> [] ->
  os (calls p) (submitted_command self) = RunCompleted r ->
  returncode r = 0 ->
  fst (has_valid_tasks os (started (submitted_command self) p)) = Ok false ->
  (exists self',
      on_submit os self p =
      (Ok self',
       {| calls := calls p ++ [submitted_command self; count_query];
          single_shots := single_shots p;
          quit_requested := quit_requested p |}) /\
      status_label self' =
      {| text := lit "⚠️ " ++ lit "任务已添加，但到期时间不在未来 23 小时内";
         styleSheet := lit "color: #e5a50a; font-weight: bold;" |} /\
      entry self' = [] /\
      check_timer self' = check_timer self /\
      top_timer self' = top_timer self /\
      visible self' = visible self) /\
  (quit_requested p = false ->
   fst (fst (exec os [Clicked] self p)) = Waiting).
Proof.
  intros H Hos Hr Hvalid.
  assert (on_submit os self p =
          (Ok (set_entry []
                 (show_warning
                    (lit "任务已添加，但到期时间不在未来 23 小时内") self)),
           {| calls := calls p ++ [submitted_command self; count_query];
              single_shots := single_shots p;
              quit_requested := quit_requested p |})) as E.
  { rewrite (on_submit_completed os self p r H Hos), Hr. cbn [Z.eqb].
    rewrite (has_valid_tasks_fst _ _ _ Hvalid), started_twice. reflexivity. }
  split.
  - rewrite E. eexists. split; [reflexivity|]. repeat split.
  - intros Hq. rewrite (exec_step os Clicked _ self p _ _ Hq E).
    simpl. rewrite Hq. reflexivity.
Qed.

Lemma submit_not_due_witness :
  Py.strip (entry (typed (lit "plan trip due:friday"))) <> [] /\
  exists self',
    on_submit (always 0 (lit "0") []) (typed (lit "plan trip due:friday"))
      fresh =
    (Ok self',
     {| calls := calls fresh
                 ++ [submitted_command (typed (lit "plan trip due:friday"));
                     count_query];
        single_shots := single_shots fresh;
        quit_requested := quit_requested fresh |}) /\
    status_label self' =
    {| text := lit "⚠️ " ++ lit "任务已添加，但到期时间不在未来 23 小时内";
       styleSheet := lit "color: #e5a50a; font-weight: bold;" |} /\
    entry self' = [] /\
    check_timer self' = check_timer (typed (lit "plan trip due:friday")) /\
    top_timer self' = top_timer (typed (lit "plan trip due:friday")) /\
    visible self' = visible (typed (lit "plan trip due:friday")).
Proof.
  assert (Py.strip (entry (typed (lit "plan trip due:friday"))) <> []) as H
    by (vm_compute; discriminate).
  split; [exact H|].
  refine (proj1 (submit_not_due (always 0 (lit "0") [])
                   (typed (lit "plan trip due:friday")) fresh
                   {| returncode := 0; stdout := lit "0"; stderr := [] |}
                   H eq_refl eq_refl _)).
  vm_compute. reflexivity.
Defined.

(** ** Polling *)

Lemma stop_timers_inactive (self : TaskDialog) :
  active (check_timer (stop_timers self)) = false /\
  active (top_timer (stop_timers self)) = false.
Proof. split; reflexivity. Qed.

Lemma closed_stopped_inactive (self : TaskDialog) :
  active (check_timer (closed_by_quit (stop_timers self))) = false /\
  active (top_timer (closed_by_quit (stop_timers self))) = false.
Proof.
  unfold closed_by_quit. destruct (visible (stop_timers self));
    split; reflexivity.
Qed.

(** C10: the check timer is started with an interval of 2000 ms on
    [check_tasks_external].  When the predicate gives [b], the check
    leaves the dialog and the process as they are if [b] is false (only
    the query itself has been run); if [b] is true it stops both timers
    and calls [QApplication.quit], which closes the window: afterwards
    both timers are inactive, the window is hidden and the loop has been
    told to exit.  Delivered by the event loop, the check makes the loop
    return 0 in the second case and go on with the next event in the
    first. *)
Theorem poll_quits_iff_valid (os : system) (self : TaskDialog) (p : Process)
    (b : bool) :
  fst (has_valid_tasks os p) = Ok b ->
  check_timer TaskDialog__init__ =
  {| interval := 2000; active := true; timeout := check_tasks_external_slot |}
  /\
  check_tasks_external os self p =
  (Ok (if b then closed_by_quit (stop_timers self) else self),
   {| calls := calls p ++ [count_query];
      single_shots := single_shots p;
      quit_requested := if b then true else quit_requested p |}) /\
  (active (check_timer (closed_by_quit (stop_timers self))) = false /\
   active (top_timer (closed_by_quit (stop_timers self))) = false /\
   visible (closed_by_quit (stop_timers self)) = false /\
   entry (closed_by_quit (stop_timers self)) = entry self /\
   status_label (closed_by_quit (stop_timers self)) = status_label self) /\
  forall evs,
    quit_requested p = false ->
    active (check_timer self) = true ->
    timeout (check_timer self) = check_tasks_external_slot ->
    exec os (TimerTimeout CheckTimer :: evs) self p =
    if b then
      (Returned 0, closed_by_quit (stop_timers self),
       {| calls := calls p ++ [count_query];
          single_shots := single_shots p;
          quit_requested := true |})
    else exec os evs self (started count_query p).
Proof.
  intros Hb. apply has_valid_tasks_fst in Hb.
  assert (check_tasks_external os self p =
          (Ok (if b then closed_by_quit (stop_timers self) else self),
           {| calls := calls p ++ [count_query];
              single_shots := single_shots p;
              quit_requested := if b then true else quit_requested p |}))
    as E.
  { unfold check_tasks_external, bind. rewrite Hb.
    destruct b; [|reflexivity].
    cbv zeta. rewrite QApplication_quit_closes. reflexivity. }
  split; [reflexivity|]. split; [exact E|]. split.
  - destruct (closed_stopped_inactive self) as [A1 A2].
    destruct (closed_by_quit_keeps (stop_timers self)) as [K1 K2].
    repeat split; try assumption. apply closed_by_quit_hidden.
  - intros evs Hq Ha Ht.
    assert (dispatch os (TimerTimeout CheckTimer) self p =
            check_tasks_external os self p) as D.
    { simpl. rewrite Ha, Ht. reflexivity. }
    rewrite E in D. rewrite (exec_step os _ evs self p _ _ Hq D).
    destruct b.
    + apply exec_quit. reflexivity.
    + reflexivity.
Qed.

Lemma poll_quits_iff_valid_witness :
  exec (always 0 (lit "1") []) [TimerTimeout CheckTimer; Clicked]
    (show TaskDialog__init__) fresh =
  (Returned 0, closed_by_quit (stop_timers (show TaskDialog__init__)),
   {| calls := calls fresh ++ [count_query];
      single_shots := single_shots fresh;
      quit_requested := true |}) /\
  check_tasks_external (unavailable no_such_file) (show TaskDialog__init__)
    fresh =
  (Ok (show TaskDialog__init__),
   {| calls := calls fresh ++ [count_query];
      single_shots := single_shots fresh;
      quit_requested := quit_requested fresh |}).
Proof.
  split.
  - refine (proj2 (proj2 (proj2
             (poll_quits_iff_valid (always 0 (lit "1") [])
                (show TaskDialog__init__) fresh true _)))
             [Clicked] eq_refl eq_refl eq_refl).
    vm_compute. reflexivity.
  - refine (proj1 (proj2
             (poll_quits_iff_valid (unavailable no_such_file)
                (show TaskDialog__init__) fresh false _))).
    vm_compute. reflexivity.
Defined.

(** * Further properties *)

(** ** More on [strip] and [split] *)

Lemma lstrip_split (s : str) :
  exists l, s = l ++ Py.lstrip s /\ forallb Py.isspace l = true.
Proof.
  induction s as [|c s (l & E & Hl)].
  - exists []. split; reflexivity.
  - simpl. destruct (Py.isspace c) eqn:Hc.
    + exists (c :: l). simpl. rewrite Hc, Hl. split; [|reflexivity].
      f_equal. exact E.
    + exists []. split; reflexivity.
Qed.

Lemma rstrip_split (s : str) :
  exists r, s = Py.rstrip s ++ r /\ forallb Py.isspace r = true.
Proof.
  unfold Py.rstrip. destruct (lstrip_split (rev s)) as (l & E & Hl).
  exists (rev l). split.
  - rewrite <- rev_app_distr, <- E, rev_involutive. reflexivity.
  - rewrite forallb_rev. exact Hl.
Qed.

Lemma strip_split (s : str) :
  exists l r,
    s = l ++ Py.strip s ++ r /\
    forallb Py.isspace l = true /\
    forallb Py.isspace r = true.
Proof.
  destruct (lstrip_split s) as (l & El & Hl).
  destruct (rstrip_split (Py.lstrip s)) as (r & Er & Hr).
  exists l, r. fold (Py.strip s) in Er.
  split; [rewrite <- Er; exact El|]. split; assumption.
Qed.

(** X1: [strip] cuts whitespace, and only whitespace, from both ends: the
    text is the trimmed text between two runs of whitespace, and the
    trimmed text neither starts nor ends with whitespace. *)
Theorem strip_between_whitespace (s : str) :
  exists l r,
    s = l ++ Py.strip s ++ r /\
    forallb Py.isspace l = true /\
    forallb Py.isspace r = true /\
    match Py.strip s with [] => True | c :: _ => Py.isspace c = false end /\
    match rev (Py.strip s) with [] => True | c :: _ => Py.isspace c = false end.
Proof.
  destruct (lstrip_split s) as (l & El & Hl).
  destruct (rstrip_split (Py.lstrip s)) as (r & Er & Hr).
  exists l, r. fold (Py.strip s) in Er.
  split; [rewrite <- Er; exact El|]. split; [exact Hl|]. split; [exact Hr|].
  split.
  - destruct (Py.strip s) as [|c t] eqn:E; [exact I|].
    try rewrite E in Er. simpl in Er.
    apply (lstrip_head s c (t ++ r)). exact Er.
  - unfold Py.strip, Py.rstrip. rewrite rev_involutive.
    destruct (Py.lstrip (rev (Py.lstrip s))) as [|c t] eqn:E; [exact I|].
    apply (lstrip_head _ c t E).
Qed.

Lemma split_from_spaces (r : str) :
  forallb Py.isspace r = true ->
  forall cur,
    Py.split_from cur r = match cur with [] => [] | _ :: _ => [rev cur] end.
Proof.
  induction r as [|c r IH]; intros H cur; [reflexivity|].
  simpl in H. apply andb_true_iff in H as [Hc Hr].
  simpl. rewrite Hc. rewrite (IH Hr []). destruct cur; reflexivity.
Qed.

Lemma split_from_trailing (s r : str) :
  forallb Py.isspace r = true ->
  forall cur, Py.split_from cur (s ++ r) = Py.split_from cur s.
Proof.
  intros Hr. induction s as [|c s IH]; intros cur.
  - simpl. rewrite (split_from_spaces r Hr). destruct cur; reflexivity.
  - simpl. destruct (Py.isspace c).
    + rewrite IH. reflexivity.
    + apply IH.
Qed.

Lemma split_leading (l s : str) :
  forallb Py.isspace l = true -> Py.split (l ++ s) = Py.split s.
Proof.
  unfold Py.split. induction l as [|c l IH]; intros H; [reflexivity|].
  simpl in H. apply andb_true_iff in H as [Hc Hl].
  simpl. rewrite Hc. apply IH. exact Hl.
Qed.

(** X2: trimming does not change the tokens, so the arguments [on_submit]
    passes to [task add] are the tokens of the line edit's text as it
    stands. *)
Theorem split_strip (s : str) (self : TaskDialog) :
  Py.split (Py.strip s) = Py.split s /\
  submitted_command self = [lit "task"; lit "add"] ++ Py.split (entry self).
Proof.
  assert (forall t, Py.split (Py.strip t) = Py.split t) as H.
  { intros t. destruct (strip_split t) as (l & r & E & Hl & Hr).
    rewrite E at 2. rewrite (split_leading l _ Hl).
    unfold Py.split. rewrite (split_from_trailing _ r Hr). reflexivity. }
  split; [apply H|].
  unfold submitted_command, add_command. rewrite H. reflexivity.
Qed.

(** X3: [split] undoes joining with single spaces: words typed with one
    space between them come back as they were typed. *)
Theorem split_join_spaces (ts : list str) :
  Forall word ts -> Py.split (join_spaces ts) = ts.
Proof.
  induction 1 as [|t ts [Hne Ht] Hts IH]; [reflexivity|].
  unfold Py.split in *. cbn [join_spaces].
  destruct ts as [|u ts].
  - rewrite <- (app_nil_r t) at 1.
    rewrite (split_from_word t [] [] Ht I). simpl.
    destruct t; [congruence|reflexivity].
  - rewrite (split_from_word t [] (32%N :: join_spaces (u :: ts)) Ht);
      [|reflexivity].
    destruct t as [|c t]; [congruence|].
    cbn [rev app Py.split_from]. change (Py.isspace 32%N) with true.
    cbn iota. rewrite IH. reflexivity.
Qed.

Lemma split_join_spaces_witness :
  Forall word [lit "buy"; lit "milk"; lit "due:today"] /\
  Py.split (join_spaces [lit "buy"; lit "milk"; lit "due:today"]) =
  [lit "buy"; lit "milk"; lit "due:today"].
Proof.
  assert (Forall word [lit "buy"; lit "milk"; lit "due:today"]) as H.
  { repeat constructor; discriminate. }
  split; [exact H|]. exact (split_join_spaces _ H).
Defined.

(** X4: [split] computes exactly the maximal runs of non-whitespace
    characters: a list of strings is the list of whitespace-separated
    tokens of a text if and only if it is what [split] returns, and every
    token returned is non-empty and free of whitespace. *)
Theorem split_graph (s : str) (ts : list str) :
  (whitespace_tokens s ts <-> ts = Py.split s) /\
  Forall word (Py.split s).
Proof.
  split.
  - split.
    + apply tokens_split.
    + intros ->. apply split_tokens.
  - apply (tokens_words s). apply split_tokens.
Qed.

(** ** More on the predicate *)

Lemma has_valid_tasks_printed_count_witness :
  has_valid_tasks
    (always 0 (decimal [1; 2]%N ++ [0x0A%N]) []) fresh =
  (Ok (0 <? Py.digits_value [1; 2]%N), started count_query fresh).
Proof.
  apply (has_valid_tasks_printed_count _ fresh [1; 2]%N 0 []).
  - discriminate.
  - repeat constructor.
  - vm_compute. discriminate.
  - reflexivity.
Defined.

(** X6: the predicate reads the standard output of the query and nothing
    else: two completed queries with the same output give the same
    answer, whatever their exit status and standard error. *)
Theorem has_valid_tasks_reads_stdout_only
    (os1 os2 : system) (p1 p2 : Process) (r1 r2 : CompletedProcess) :
  os1 (calls p1) count_query = RunCompleted r1 ->
  os2 (calls p2) count_query = RunCompleted r2 ->
  stdout r1 = stdout r2 ->
  fst (has_valid_tasks os1 p1) = fst (has_valid_tasks os2 p2).
Proof.
  intros H1 H2 E.
  rewrite (has_valid_tasks_completed os1 p1 r1 H1),
          (has_valid_tasks_completed os2 p2 r2 H2), E.
  reflexivity.
Qed.

Lemma has_valid_tasks_reads_stdout_only_witness :
  fst (has_valid_tasks (always 0 (lit "3") []) fresh) =
  fst (has_valid_tasks (always 2 (lit "3") invalid_date) fresh).
Proof.
  apply (has_valid_tasks_reads_stdout_only _ _ fresh fresh
           {| returncode := 0; stdout := lit "3"; stderr := [] |}
           {| returncode := 2; stdout := lit "3"; stderr := invalid_date |});
    reflexivity.
Defined.

(** X7: a query that completes with no output, or with whitespace only,
    counts as no qualifying task. *)
Theorem has_valid_tasks_blank_output
    (os : system) (p : Process) (r : CompletedProcess) :
  os (calls p) count_query = RunCompleted r ->
  forallb Py.isspace (stdout r) = true ->
  has_valid_tasks os p = (Ok false, started count_query p).
Proof.
  intros H Hb. rewrite (has_valid_tasks_completed os p r H).
  apply strip_nil in Hb. rewrite Hb. reflexivity.
Qed.

Lemma has_valid_tasks_blank_output_witness :
  has_valid_tasks (always 0 [0x0A%N] []) fresh =
  (Ok false, started count_query fresh).
Proof.
  apply (has_valid_tasks_blank_output _ fresh
           {| returncode := 0; stdout := [0x0A%N]; stderr := [] |});
    reflexivity.
Defined.

(** ** More on submitting *)

(** The four ways [on_submit] can end. *)
Lemma on_submit_cases os self p :
  (forallb Py.isspace (entry self) = true /\
   on_submit os self p =
   (Ok (show_error (lit "请输入任务内容") self), p)) \/
  (Py.strip (entry self) <> [] /\
   exists msg,
     on_submit os self p =
     (Ok (show_error msg self), started (submitted_command self) p)) \/
  (fst (has_valid_tasks os (started (submitted_command self) p)) = Ok true /\
   on_submit os self p =
   (Ok (show_success self),
    {| calls := calls p ++ [submitted_command self; count_query];
       single_shots := single_shots p ++ [(1000, QApplication_quit_slot)];
       quit_requested := quit_requested p |})) \/
  (Py.strip (entry self) <> [] /\
   on_submit os self p =
   (Ok (set_entry []
          (show_warning
             (lit "任务已添加，但到期时间不在未来 23 小时内") self)),
    {| calls := calls p ++ [submitted_command self; count_query];
       single_shots := single_shots p;
       quit_requested := quit_requested p |})).
Proof.
  destruct (forallb Py.isspace (entry self)) eqn:Hb.
  - left. split; [reflexivity|].
    unfold on_submit. rewrite truthy_strip, Hb. reflexivity.
  - right.
    assert (Py.strip (entry self) <> []) as H.
    { intros E. apply strip_nil in E. congruence. }
    destruct (os (calls p) (submitted_command self)) as [e|r] eqn:Hos.
    + left. split; [exact H|]. eexists.
      apply (on_submit_raises os self p e H Hos).
    + rewrite (on_submit_completed os self p r H Hos).
      destruct (returncode r =? 0).
      * destruct (has_valid_tasks_total os (started (submitted_command self) p))
          as [b E].
        rewrite E, started_twice. right.
        destruct b; [left|right]; split; try reflexivity; try exact H.
      * left. split; [exact H|]. eexists. reflexivity.
Qed.

(** X8: whenever [on_submit] ends, that is, whenever each child process
    it starts has completed or has failed to start, it ends normally and
    not with an exception; the dialog it returns has the timers, the
    visibility and the drag state it was given, its input text is either
    the one it was given or empty, and [QApplication.quit] has not been
    called. *)
Theorem on_submit_frame (os : system) (self : TaskDialog) (p : Process)
    (res : result TaskDialog) (p' : Process) :
  on_submit os self p = (res, p') ->
  exists self',
    res = Ok self' /\
    check_timer self' = check_timer self /\
    top_timer self' = top_timer self /\
    visible self' = visible self /\
    dragging self' = dragging self /\
    offset self' = offset self /\
    raised self' = raised self /\
    quit_requested p' = quit_requested p /\
    (entry self' = entry self \/ entry self' = []).
Proof.
  destruct (on_submit_cases os self p)
    as [[_ E]|[[_ [msg E]]|[[_ E]|[_ E]]]];
    rewrite E; intros [= <- <-]; eexists; (split; [reflexivity|]);
    repeat split; auto.
Qed.

Lemma on_submit_frame_witness :
  exists self',
    Ok (show_error (lit "请输入任务内容") (typed (lit "  "))) = Ok self' /\
    check_timer self' = check_timer (typed (lit "  ")) /\
    top_timer self' = top_timer (typed (lit "  ")) /\
    visible self' = visible (typed (lit "  ")) /\
    dragging self' = dragging (typed (lit "  ")) /\
    offset self' = offset (typed (lit "  ")) /\
    raised self' = raised (typed (lit "  ")) /\
    quit_requested fresh = quit_requested fresh /\
    (entry self' = entry (typed (lit "  ")) \/ entry self' = []).
Proof.
  apply (on_submit_frame (always 0 [] []) (typed (lit "  ")) fresh).
  vm_compute. reflexivity.
Defined.

(** X9: the child processes [on_submit] starts: none for a blank input;
    otherwise the add command, followed by the count query exactly when
    the add command completed with exit code 0. *)
Theorem on_submit_children (os : system) (self : TaskDialog) (p : Process) :
  calls (snd (on_submit os self p)) =
  calls p ++
  (if forallb Py.isspace (entry self) then []
   else
     match os (calls p) (submitted_command self) with
     | RunRaises _ => [submitted_command self]
     | RunCompleted r =>
       if returncode r =? 0
       then [submitted_command self; count_query]
       else [submitted_command self]
     end).
Proof.
  destruct (forallb Py.isspace (entry self)) eqn:Hb.
  - unfold on_submit. rewrite truthy_strip, Hb. simpl.
    rewrite app_nil_r. reflexivity.
  - assert (Py.strip (entry self) <> []) as H.
    { intros E. apply strip_nil in E. congruence. }
    destruct (os (calls p) (submitted_command self)) as [e|r] eqn:Hos.
    + rewrite (on_submit_raises os self p e H Hos). reflexivity.
    + rewrite (on_submit_completed os self p r H Hos).
      destruct (returncode r =? 0); [|reflexivity].
      destruct (has_valid_tasks_total os (started (submitted_command self) p))
        as [b E].
      rewrite E, started_twice. destruct b; reflexivity.
Qed.

Lemma error_label_not_success (msg : str) :
  {| text := lit "❌ " ++ msg;
     styleSheet := lit "color: #c01c28; font-weight: bold;" |}
  <> success_label.
Proof.
  unfold success_label. intros E. injection E as _ E.
  vm_compute in E. discriminate.
Qed.

Lemma warning_label_not_success (msg : str) :
  {| text := lit "⚠️ " ++ msg;
     styleSheet := lit "color: #e5a50a; font-weight: bold;" |}
  <> success_label.
Proof.
  unfold success_label. intros E. injection E as _ E.
  vm_compute in E. discriminate.
Qed.

(** X10: [on_submit] registers the one-shot timer that ends the program
    exactly when it leaves the success message in the status line; in
    every other case the pending one-shot timers are as before. *)
Theorem on_submit_success_iff_scheduled
    (os : system) (self : TaskDialog) (p : Process) :
  exists self' p',
    on_submit os self p = (Ok self', p') /\
    ((status_label self' = success_label /\
      single_shots p' = single_shots p ++ [(1000, QApplication_quit_slot)])
     \/
     (status_label self' <> success_label /\
      single_shots p' = single_shots p)).
Proof.
  destruct (on_submit_cases os self p)
    as [[_ E]|[[_ [msg E]]|[[_ E]|[_ E]]]];
    rewrite E; do 2 eexists; (split; [reflexivity|]).
  - right. split; [apply error_label_not_success|reflexivity].
  - right. split; [apply error_label_not_success|reflexivity].
  - left. split; reflexivity.
  - right. split; [apply warning_label_not_success|reflexivity].
Qed.



(** ** The event loop *)

Lemma check_tasks_external_cases os self p :
  (fst (has_valid_tasks os p) = Ok true /\
   check_tasks_external os self p =
   (Ok (closed_by_quit (stop_timers self)),
    {| calls := calls p ++ [count_query];
       single_shots := single_shots p;
       quit_requested := true |})) \/
  (fst (has_valid_tasks os p) = Ok false /\
   check_tasks_external os self p = (Ok self, started count_query p)).
Proof.
  destruct (has_valid_tasks_total os p) as [b E].
  unfold check_tasks_external, bind. rewrite E.
  destruct b; [left|right]; (split; [reflexivity|]).
  - cbv zeta. rewrite QApplication_quit_closes. reflexivity.
  - reflexivity.
Qed.

Lemma submitted_command_task (self : TaskDialog) :
  task_command (submitted_command self).
Proof.
  right. exists (Py.split (Py.strip (entry self))). split; [reflexivity|].
  apply (tokens_words (Py.strip (entry self))). apply split_tokens.
Qed.

Lemma count_query_task : task_command count_query.
Proof. left. reflexivity. Qed.

Create HintDb task.
#[local] Hint Resolve submitted_command_task count_query_task : task.

Lemma on_submit_calls os self p :
  exists self' p' new,
    on_submit os self p = (Ok self', p') /\
    calls p' = calls p ++ new /\
    Forall task_command new.
Proof.
  destruct (on_submit_cases os self p)
    as [[_ E]|[[_ [msg E]]|[[_ E]|[_ E]]]]; rewrite E.
  - exists (show_error (lit "请输入任务内容") self), p, [].
    rewrite app_nil_r. auto.
  - do 2 eexists. exists [submitted_command self].
    repeat split; auto with task.
  - do 2 eexists. exists [submitted_command self; count_query].
    repeat split; auto with task.
  - do 2 eexists. exists [submitted_command self; count_query].
    repeat split; auto with task.
Qed.

Lemma call_slot_calls os f self p :
  exists self' p' new,
    call_slot os f self p = (Ok self', p') /\
    calls p' = calls p ++ new /\
    Forall task_command new.
Proof.
  destruct f; simpl.
  - destruct (check_tasks_external_cases os self p) as [[_ E]|[_ E]];
      rewrite E; do 2 eexists; exists [count_query];
      repeat split; auto with task.
  - exists (ensure_on_top self), p, []. rewrite app_nil_r. auto.
  - rewrite QApplication_quit_closes. do 2 eexists. exists [].
    split; [reflexivity|]. simpl. rewrite app_nil_r. auto.
Qed.

(** No slot raises, and every child process a slot starts is a [task]
    command. *)
Lemma dispatch_calls os ev self p :
  exists self' p' new,
    dispatch os ev self p = (Ok self', p') /\
    calls p' = calls p ++ new /\
    Forall task_command new.
Proof.
  destruct ev as [s| | |[|]| | |lb pos|g|lb]; simpl;
    try (do 2 eexists; exists []; rewrite app_nil_r;
         repeat split; constructor).
  - apply on_submit_calls.
  - apply on_submit_calls.
  - destruct (active (check_timer self)); [apply call_slot_calls|].
    exists self, p, []. rewrite app_nil_r. auto.
  - destruct (active (top_timer self)); [apply call_slot_calls|].
    exists self, p, []. rewrite app_nil_r. auto.
  - destruct (single_shots p) as [|[ms f] rest].
    + exists self, p, []. rewrite app_nil_r. auto.
    + apply (call_slot_calls os f self
               {| calls := calls p; single_shots := rest;
                  quit_requested := quit_requested p |}).
Qed.

Lemma exec_calls os evs :
  forall self p,
  exists st self' p' new,
    exec os evs self p = (st, self', p') /\
    (st = Waiting \/ st = Returned 0) /\
    calls p' = calls p ++ new /\
    Forall task_command new.
Proof.
  induction evs as [|ev evs IH]; intros self p; simpl.
  - destruct (quit_requested p); do 3 eexists; exists [];
      rewrite app_nil_r; repeat split; auto.
  - destruct (quit_requested p).
    + do 3 eexists. exists []. rewrite app_nil_r. repeat split; auto.
    + destruct (dispatch_calls os ev self p)
        as (self1 & p1 & new1 & E1 & C1 & F1).
      rewrite E1.
      destruct (IH self1 p1) as (st & self2 & p2 & new2 & E2 & S2 & C2 & F2).
      rewrite E2. exists st, self2, p2, (new1 ++ new2).
      repeat split; auto.
      * rewrite C2, C1, app_assoc. reflexivity.
      * apply Forall_app. auto.
Qed.

(** X12: no exception escapes a slot and the program has one exit code:
    whatever the external tool answers and whatever the user does, the
    process is either still running or has exited with code 0. *)
Theorem main_exits_zero (os : system) (evs : list event) :
  state (main os evs fresh) = Running \/
  state (main os evs fresh) = Exited 0.
Proof.
  unfold main. rewrite startup_shows.
  destruct (exec_calls os evs (show TaskDialog__init__)
              (started count_query fresh))
    as (st & d & p & new & E & [->| ->] & _).
  - rewrite E. left. reflexivity.
  - rewrite E. right. reflexivity.
Qed.

(** X13: every child process the program starts is the count query or
    [task add] followed by non-empty arguments without whitespace, and the
    first one is the count query of the start-up check. *)
Theorem main_children (os : system) (evs : list event) :
  Forall task_command (calls (process (main os evs fresh))) /\
  exists rest, calls (process (main os evs fresh)) = count_query :: rest.
Proof.
  unfold main. rewrite startup_shows.
  destruct (exec_calls os evs (show TaskDialog__init__)
              (started count_query fresh))
    as (st & d & p & new & E & S & C & F).
  rewrite E.
  assert (calls p = count_query :: new) as Hc by (rewrite C; reflexivity).
  destruct S as [-> | ->]; simpl; rewrite Hc;
    (split; [constructor; auto with task|eexists; reflexivity]).
Qed.

Lemma exec_continue os evs1 evs2 :
  forall self p,
    exec os (evs1 ++ evs2) self p =
    match exec os evs1 self p with
    | (Waiting, self', p') => exec os evs2 self' p'
    | ended => ended
    end.
Proof.
  induction evs1 as [|ev evs1 IH]; intros self p.
  - simpl. destruct (quit_requested p) eqn:Hq.
    + apply exec_quit. exact Hq.
    + reflexivity.
  - simpl. destruct (quit_requested p); [reflexivity|].
    destruct (dispatch os ev self p) as [[self'|e] p'].
    + apply IH.
    + reflexivity.
Qed.

Lemma exec_waiting os evs :
  forall self p self' p',
    exec os evs self p = (Waiting, self', p') -> quit_requested p' = false.
Proof.
  induction evs as [|ev evs IH]; intros self p self' p'; simpl.
  - destruct (quit_requested p) eqn:Hq; intros [= <- <-];
      try discriminate. exact Hq.
  - destruct (quit_requested p); [discriminate|].
    destruct (dispatch os ev self p) as [[self1|e] p1]; [|discriminate].
    apply IH.
Qed.

(** X15: a close request quits the application: both timers are stopped,
    the event loop returns 0 without starting any child process, and no
    later event is delivered. *)
Theorem close_quits (os : system) (evs : list event)
    (self : TaskDialog) (p : Process) :
  quit_requested p = false ->
  exec os (CloseRequested :: evs) self p =
  (Returned 0, set_visible false (stop_timers self),
   {| calls := calls p;
      single_shots := single_shots p;
      quit_requested := true |}) /\
  active (check_timer (set_visible false (stop_timers self))) = false /\
  active (top_timer (set_visible false (stop_timers self))) = false.
Proof.
  intros Hq. split; [|split; reflexivity].
  rewrite (exec_step os CloseRequested evs self p
             (set_visible false (stop_timers self))
             {| calls := calls p; single_shots := single_shots p;
                quit_requested := true |} Hq eq_refl).
  apply exec_quit. reflexivity.
Qed.

Lemma close_quits_witness :
  exec (always 0 (lit "0") []) [CloseRequested; Clicked]
    (typed (lit "buy milk")) fresh =
  (Returned 0, set_visible false (stop_timers (typed (lit "buy milk"))),
   {| calls := calls fresh;
      single_shots := single_shots fresh;
      quit_requested := true |}).
Proof.
  exact (proj1 (close_quits (always 0 (lit "0") []) [Clicked]
                  (typed (lit "buy milk")) fresh eq_refl)).
Defined.

(** *** What every run keeps *)

Lemma consistent_frame self p self' p' :
  consistent self p ->
  check_timer self' = check_timer self ->
  top_timer self' = top_timer self ->
  (quit_requested p = true -> quit_requested p' = true) ->
  Forall (fun shot => shot = (1000, QApplication_quit_slot))
    (single_shots p') ->
  consistent self' p'.
Proof.
  unfold consistent, wired. intros (W & A & Q & F) Ec Et Hq F'.
  rewrite Ec, Et. repeat split; tauto.
Qed.

Lemma consistent_stopped self p self' p' :
  consistent self p ->
  check_timer self' = stop (check_timer self) ->
  top_timer self' = stop (top_timer self) ->
  quit_requested p' = true ->
  Forall (fun shot => shot = (1000, QApplication_quit_slot))
    (single_shots p') ->
  consistent self' p'.
Proof.
  unfold consistent, wired. intros (W & A & Q & F) Ec Et Hq F'.
  rewrite Ec, Et. simpl. repeat split; tauto.
Qed.

Lemma consistent_shots self p :
  consistent self p ->
  Forall (fun shot => shot = (1000, QApplication_quit_slot)) (single_shots p).
Proof. intros (_ & _ & _ & F). exact F. Qed.

Lemma consistent_closed self p p' :
  consistent self p ->
  quit_requested p' = true ->
  Forall (fun shot => shot = (1000, QApplication_quit_slot))
    (single_shots p') ->
  consistent (closed_by_quit self) p'.
Proof.
  intros C Hq F. unfold closed_by_quit. destruct (visible self).
  - apply (consistent_stopped self p); auto.
  - apply (consistent_frame self p); auto.
Qed.

Lemma on_submit_consistent os self p self' p' :
  consistent self p ->
  on_submit os self p = (Ok self', p') ->
  consistent self' p'.
Proof.
  intros C. pose proof (consistent_shots self p C) as F.
  destruct (on_submit_cases os self p)
    as [[_ E]|[[_ [msg E]]|[[_ E]|[_ E]]]];
    rewrite E; intros [= <- <-];
    apply (consistent_frame self p); auto.
  simpl. apply Forall_app. split; [exact F|]. repeat constructor.
Qed.

Lemma call_slot_consistent os f self p self' p' :
  consistent self p ->
  call_slot os f self p = (Ok self', p') ->
  consistent self' p'.
Proof.
  intros C. pose proof (consistent_shots self p C) as F.
  destruct f; simpl.
  - destruct (check_tasks_external_cases os self p) as [[_ E]|[_ E]];
      rewrite E; intros [= <- <-].
    + apply (consistent_closed (stop_timers self)
               {| calls := calls p ++ [count_query];
                  single_shots := single_shots p;
                  quit_requested := true |}); auto.
      apply (consistent_stopped self p); auto.
    + apply (consistent_frame self p); auto.
  - intros [= <- <-]. apply (consistent_frame self p); auto.
  - rewrite QApplication_quit_closes. intros [= <- <-].
    apply (consistent_closed self p); auto.
Qed.

Lemma dispatch_consistent os ev self p self' p' :
  consistent self p ->
  dispatch os ev self p = (Ok self', p') ->
  consistent self' p'.
Proof.
  intros C. pose proof (consistent_shots self p C) as F.
  destruct ev as [s| | |[|]| | |lb pos|g|lb]; simpl.
  - intros [= <- <-]. apply (consistent_frame self p); auto.
  - apply on_submit_consistent. exact C.
  - apply on_submit_consistent. exact C.
  - destruct (active (check_timer self)).
    + apply call_slot_consistent. exact C.
    + intros [= <- <-]. exact C.
  - destruct (active (top_timer self)).
    + apply call_slot_consistent. exact C.
    + intros [= <- <-]. exact C.
  - destruct (single_shots p) as [|[ms f] rest] eqn:Es.
    + intros [= <- <-]. exact C.
    + apply call_slot_consistent.
      apply (consistent_frame self p); auto.
      simpl. inversion F. assumption.
  - intros [= <- <-]. apply (consistent_stopped self p); auto.
  - intros [= <- <-]. unfold mousePressEvent.
    destruct lb; [|exact C]. apply (consistent_frame self p); auto.
  - intros [= <- <-]. exact C.
  - intros [= <- <-]. unfold mouseReleaseEvent.
    destruct lb; [|exact C]. apply (consistent_frame self p); auto.
Qed.

Lemma exec_consistent os evs :
  forall self p st self' p',
    consistent self p ->
    exec os evs self p = (st, self', p') ->
    consistent self' p'.
Proof.
  induction evs as [|ev evs IH]; intros self p st self' p' C; simpl.
  - destruct (quit_requested p); intros [= _ <- <-]; exact C.
  - destruct (quit_requested p); [intros [= _ <- <-]; exact C|].
    destruct (dispatch_calls os ev self p) as (self1 & p1 & new & E & _).
    rewrite E. apply IH.
    apply (dispatch_consistent os ev self p self1 p1 C E).
Qed.

Lemma startup_consistent :
  consistent (show TaskDialog__init__) (started count_query fresh).
Proof.
  unfold consistent, wired. simpl. repeat split; try discriminate.
  constructor.
Qed.

(** X16: along every run the two timers keep the interval and the slot
    given at construction, they are both running or both stopped, they are
    stopped only once [QApplication.quit] has been called, and every
    pending one-shot timer is a 1000 ms timer on [QApplication.quit]. *)
Theorem run_consistent (os : system) (evs : list event) (d : TaskDialog) :
  window (main os evs fresh) = Some d ->
  interval (check_timer d) = 2000 /\
  timeout (check_timer d) = check_tasks_external_slot /\
  interval (top_timer d) = 500 /\
  timeout (top_timer d) = ensure_on_top_slot /\
  active (check_timer d) = active (top_timer d) /\
  (active (check_timer d) = false ->
   quit_requested (process (main os evs fresh)) = true) /\
  Forall (fun shot => shot = (1000, QApplication_quit_slot))
    (single_shots (process (main os evs fresh))).
Proof.
  unfold main. rewrite startup_shows.
  destruct (exec os evs _ _) as [[st d'] p'] eqn:E.
  pose proof (exec_consistent os evs _ _ _ _ _ startup_consistent E)
    as ((W1 & W2 & W3 & W4) & A & Q & F).
  destruct st; simpl; intros [= <-]; repeat split; assumption.
Qed.

Lemma run_consistent_witness :
  active (check_timer
            (set_visible false
               (stop_timers (ensure_on_top (show TaskDialog__init__))))) =
  active (top_timer
            (set_visible false
               (stop_timers (ensure_on_top (show TaskDialog__init__))))).
Proof.
  refine (proj1 (proj2 (proj2 (proj2 (proj2
    (run_consistent (always 0 (lit "2") [])
       [TimerTimeout TopTimer; TimerTimeout CheckTimer]
       (set_visible false
          (stop_timers (ensure_on_top (show TaskDialog__init__)))) _)))))).
  vm_compute. reflexivity.
Defined.

(** *** Staying open *)

Lemma no_task_false os p :
  no_task os -> has_valid_tasks os p = (Ok false, started count_query p).
Proof.
  intros H. specialize (H (calls p)).
  destruct (os (calls p) count_query) as [e|r] eqn:E.
  - apply (has_valid_tasks_raises os p e E).
  - rewrite (has_valid_tasks_completed os p r E).
    destruct (Py.int (Py.strip (stdout r))) as [n|]; [|reflexivity].
    replace (0 <? n) with false by (symmetry; apply Z.ltb_ge; exact H).
    reflexivity.
Qed.

Lemma open_idle_frame self p self' p' :
  open_idle self p ->
  check_timer self' = check_timer self ->
  top_timer self' = top_timer self ->
  visible self' = visible self ->
  single_shots p' = single_shots p ->
  quit_requested p' = quit_requested p ->
  open_idle self' p'.
Proof.
  unfold open_idle, wired. intros (W & V & S & Q) -> -> -> -> ->. tauto.
Qed.

Lemma dispatch_open_idle os ev self p :
  no_task os ->
  ev <> CloseRequested ->
  open_idle self p ->
  exists self' p',
    dispatch os ev self p = (Ok self', p') /\ open_idle self' p'.
Proof.
  intros N Hev O.
  assert (forall d, exists self' p',
             on_submit os d p = (Ok self', p') /\
             check_timer self' = check_timer d /\
             top_timer self' = top_timer d /\
             visible self' = visible d /\
             single_shots p' = single_shots p /\
             quit_requested p' = quit_requested p) as Hsub.
  { intros d.
    destruct (on_submit_cases os d p)
      as [[_ E]|[[_ [msg E]]|[[T E]|[_ E]]]];
      try (rewrite E; do 2 eexists; repeat split; reflexivity).
    rewrite (no_task_false os _ N) in T. discriminate. }
  destruct O as ((W1 & W2 & W3 & W4) & V & S & Q) eqn:EO.
  destruct ev as [s| | |[|]| | |lb pos|g|lb]; simpl.
  - do 2 eexists. split; [reflexivity|].
    apply (open_idle_frame self p); auto.
  - destruct (Hsub self) as (s' & p' & E & ? & ? & ? & ? & ?).
    rewrite E. do 2 eexists. split; [reflexivity|].
    apply (open_idle_frame self p); auto.
  - destruct (Hsub self) as (s' & p' & E & ? & ? & ? & ? & ?).
    rewrite E. do 2 eexists. split; [reflexivity|].
    apply (open_idle_frame self p); auto.
  - destruct (active (check_timer self)); [|exists self, p; split; [reflexivity|exact O]].
    rewrite W2. simpl. unfold check_tasks_external, bind.
    rewrite (no_task_false os p N).
    do 2 eexists. split; [reflexivity|].
    apply (open_idle_frame self p); auto.
  - destruct (active (top_timer self)); [|exists self, p; split; [reflexivity|exact O]].
    rewrite W4. simpl.
    do 2 eexists. split; [reflexivity|].
    apply (open_idle_frame self p); auto.
  - rewrite S. exists self, p. split; [reflexivity|exact O].
  - congruence.
  - destruct lb; simpl; [|exists self, p; split; [reflexivity|exact O]].
    do 2 eexists. split; [reflexivity|].
    apply (open_idle_frame self p); auto.
  - exists self, p. split; [reflexivity|exact O].
  - destruct lb; simpl; [|exists self, p; split; [reflexivity|exact O]].
    do 2 eexists. split; [reflexivity|].
    apply (open_idle_frame self p); auto.
Qed.

Lemma exec_open_idle os evs :
  no_task os ->
  ~ In CloseRequested evs ->
  forall self p,
    open_idle self p ->
    exists self' p',
      exec os evs self p = (Waiting, self', p') /\ open_idle self' p'.
Proof.
  intros N. induction evs as [|ev evs IH]; intros Hin self p O.
  - simpl. destruct O as (W & V & S & Q) eqn:EO. rewrite Q.
    exists self, p. split; [reflexivity|exact O].
  - assert (ev <> CloseRequested) as Hev
        by (intros ->; apply Hin; left; reflexivity).
    destruct (dispatch_open_idle os ev self p N Hev O)
      as (self1 & p1 & E & O1).
    simpl. destruct O as (W & V & S & Q) eqn:EO. rewrite Q, E.
    apply IH; [|exact O1]. intros H. apply Hin. right. exact H.
Qed.

(** X17: as long as the count query never gives a positive count and no
    close request arrives, the window stays open: whatever is typed,
    submitted, clicked or dragged and however often the timers fire, the
    process keeps running with the window visible. *)
Theorem stays_open (os : system) (evs : list event) :
  no_task os ->
  ~ In CloseRequested evs ->
  state (main os evs fresh) = Running /\
  exists d, window (main os evs fresh) = Some d /\ visible d = true.
Proof.
  intros N Hin. unfold main. rewrite startup_shows.
  destruct (exec_open_idle os evs N Hin (show TaskDialog__init__)
              (started count_query fresh))
    as (d & p & E & (_ & V & _)).
  { unfold open_idle, wired. simpl. repeat split. }
  rewrite E. simpl. split; [reflexivity|]. exists d. auto.
Qed.

Lemma stays_open_witness :
  state (main (always 0 (lit "0") [])
           [TextEdited (lit "plan trip due:friday"); Clicked;
            TimerTimeout CheckTimer; MousePress true (3, 4)] fresh)
  = Running.
Proof.
  refine (proj1 (stays_open (always 0 (lit "0") []) _ _ _)).
  - intros history. vm_compute. discriminate.
  - intros [H|[H|[H|[H|[]]]]]; discriminate H.
Defined.

(** X18: the one-shot timer registered on success is never cancelled:
    whatever events were delivered since, if the loop is still waiting
    with a one-shot timer pending, then, when that timer fires,
    [QApplication.quit] closes the window (it is hidden afterwards) and
    the loop returns 0. *)
Theorem one_shot_quits (os : system) (evs : list event)
    (self self' : TaskDialog) (p p' : Process) :
  consistent self p ->
  exec os evs self p = (Waiting, self', p') ->
  single_shots p' <> [] ->
  exec os (evs ++ [SingleShotTimeout]) self p =
  (Returned 0, closed_by_quit self',
   {| calls := calls p';
      single_shots := tl (single_shots p');
      quit_requested := true |}) /\
  visible (closed_by_quit self') = false /\
  (visible self' = true ->
   active (check_timer (closed_by_quit self')) = false /\
   active (top_timer (closed_by_quit self')) = false).
Proof.
  intros C E Hs.
  pose proof (exec_consistent os evs _ _ _ _ _ C E) as C'.
  pose proof (exec_waiting os evs _ _ _ _ E) as Hq.
  split; [|split; [apply closed_by_quit_hidden|apply closed_by_quit_stops]].
  rewrite exec_continue, E.
  destruct (single_shots p') as [|[ms f] rest] eqn:Es; [congruence|].
  pose proof (consistent_shots _ _ C') as F. rewrite Es in F.
  inversion F as [|? ? Hshot _]. injection Hshot as -> ->.
  erewrite exec_step;
    [|exact Hq
     |cbn [dispatch]; rewrite Es; cbn [call_slot];
      apply QApplication_quit_closes].
  apply exec_quit. reflexivity.
Qed.

Lemma one_shot_quits_witness :
  fst (fst (exec (always 0 (lit "1") [])
              ([Clicked; TextEdited (lit "more"); TimerTimeout TopTimer]
               ++ [SingleShotTimeout])
              (typed (lit "buy milk due:today")) fresh))
  = Returned 0.
Proof.
  assert (consistent (typed (lit "buy milk due:today")) fresh) as C.
  { unfold consistent, wired. simpl. repeat split; try discriminate.
    constructor. }
  eassert (exec (always 0 (lit "1") [])
             [Clicked; TextEdited (lit "more"); TimerTimeout TopTimer]
             (typed (lit "buy milk due:today")) fresh = (Waiting, _, _)) as E
    by (vm_compute; reflexivity).
  rewrite (proj1 (one_shot_quits _ _ _ _ _ _ C E
                    ltac:(vm_compute; discriminate))).
  reflexivity.
Defined.

(** ** Dragging *)

Lemma moves_while_released (gs : list (Z * Z)) :
  forall self pos,
    dragging self = false ->
    mouse_steps (map MouseMove gs) (self, pos) = (self, pos).
Proof.
  induction gs as [|g gs IH]; intros self pos H; [reflexivity|].
  simpl. unfold mouseMoveEvent. rewrite H. apply IH. exact H.
Qed.

Lemma moves_while_dragging (gs : list (Z * Z)) :
  forall self pos,
    dragging self = true ->
    fst (mouse_steps (map MouseMove gs) (self, pos)) = self.
Proof.
  induction gs as [|g gs IH]; intros self pos H; [reflexivity|].
  simpl. apply IH. exact H.
Qed.

Lemma mouse_steps_cons ev evs w :
  mouse_steps (ev :: evs) w = mouse_steps evs (mouse_step ev w).
Proof. reflexivity. Qed.

Lemma mouse_steps_app evs1 evs2 w :
  mouse_steps (evs1 ++ evs2) w = mouse_steps evs2 (mouse_steps evs1 w).
Proof. apply fold_left_app. Qed.

Lemma int32_small (z : Z) : in_int32 z -> int32 z = z.
Proof.
  unfold in_int32, int32. change (2 ^ 31) with 2147483648.
  change (2 ^ 32) with 4294967296. intros H.
  rewrite Z.mod_small; lia.
Qed.



(** ** Staying on top *)

(** X20: the top timer only raises the window: [n] of its ticks in a row
    leave the loop waiting and the process as it is (no child process);
    the dialog then counts [n] more raises and has the input text, the
    status label, the timers and the visibility it had. *)
Theorem top_timer_only_raises (os : system) (n : nat) :
  forall (self : TaskDialog) (p : Process),
    quit_requested p = false ->
    active (top_timer self) = true ->
    timeout (top_timer self) = ensure_on_top_slot ->
    exists self',
      exec os (repeat (TimerTimeout TopTimer) n) self p = (Waiting, self', p) /\
      raised self' = (n + raised self)%nat /\
      entry self' = entry self /\
      status_label self' = status_label self /\
      check_timer self' = check_timer self /\
      top_timer self' = top_timer self /\
      visible self' = visible self.
Proof.
  induction n as [|n IH]; intros self p Hq Ha Ht.
  - exists self. simpl. rewrite Hq. repeat split.
  - destruct (IH (ensure_on_top self) p Hq Ha Ht)
      as (self' & E & R & En & St & Ct & Tt & V).
    exists self'. cbn [repeat].
    rewrite (exec_step os (TimerTimeout TopTimer) _ self p
               (ensure_on_top self) p Hq).
    + split; [exact E|]. rewrite R. simpl raised.
      rewrite Nat.add_succ_r. repeat split; assumption.
    + simpl. rewrite Ha, Ht. reflexivity.
Qed.

Lemma top_timer_only_raises_witness :
  exists self',
    exec (always 0 (lit "0") []) (repeat (TimerTimeout TopTimer) 3)
      (typed (lit "buy milk")) fresh = (Waiting, self', fresh) /\
    raised self' = (3 + raised (typed (lit "buy milk")))%nat /\
    entry self' = entry (typed (lit "buy milk")) /\
    status_label self' = status_label (typed (lit "buy milk")) /\
    check_timer self' = check_timer (typed (lit "buy milk")) /\
    top_timer self' = top_timer (typed (lit "buy milk")) /\
    visible self' = visible (typed (lit "buy milk")).
Proof.
  apply top_timer_only_raises; reflexivity.
Defined.
